(** * hatchet: legacy rendering of structured log records (legacy.go)

    A shallow embedding of [AddLegacyString] and [toLegacyString] together
    with the properties of the rendering that the specification states. *)

From Stdlib Require Import ZArith NArith List Ascii String DecimalString Lia.
From Stdlib.Strings Require Import Byte.
From stdpp Require Import base option gmap strings.
Import ListNotations.

Local Open Scope string_scope.
Local Open Scope Z_scope.

(** ** Strings and the few functions of Go's [strings], [fmt] and
    [encoding] packages the file uses.  A Go string is a sequence of bytes,
    as a Rocq [string] is. *)

Module GoStr.

(** The double quote character, code 34. *)
Definition dq : string := String (ascii_of_nat 34) EmptyString.

(** [strings.Join]. *)
Fixpoint Join (elems : list string) (sep : string) : string :=
  match elems with
  | [] => EmptyString
  | [x] => x
  | x :: rest => x ++ sep ++ Join rest sep
  end.

(** [strings.Split] for a separator of one byte, the only use in the
    file: the pieces between the separators, always at least one. *)
Fixpoint Split (s : string) (sep : ascii) : list string :=
  match s with
  | EmptyString => [EmptyString]
  | String c rest =>
      if Ascii.eqb c sep then EmptyString :: Split rest sep
      else match Split rest sep with
           | [] => [String c EmptyString]
           | tok :: toks => String c tok :: toks
           end
  end.

(** [strings.Index]: the byte offset of the first occurrence, or -1. *)
Definition Index (s substr : string) : Z :=
  match String.index 0 substr s with
  | Some i => Z.of_nat i
  | None => -1
  end.

(** [len(s)]. *)
Definition len (s : string) : Z := Z.of_nat (String.length s).

(** The text of an integer under the verb [%v]. *)
Definition itoa (n : Z) : string := NilZero.string_of_int (Z.to_int n).

Definition hexdigit (n : N) : ascii :=
  if (n <? 10)%N then ascii_of_N (48 + n) else ascii_of_N (87 + n).

(** [hex.EncodeToString]: two lower-case digits per byte. *)
Fixpoint hexEncode (data : list Byte.byte) : string :=
  match data with
  | [] => EmptyString
  | b :: rest =>
      let n := Byte.to_N b in
      String (hexdigit (n / 16)) (String (hexdigit (n mod 16)) (hexEncode rest))
  end.

Definition b64digit (n : N) : ascii :=
  if (n <? 26)%N then ascii_of_N (65 + n)
  else if (n <? 52)%N then ascii_of_N (71 + n)
  else if (n <? 62)%N then ascii_of_N (n - 4)
  else if (n =? 62)%N then ascii_of_N 43
  else ascii_of_N 47.

(** [base64.StdEncoding.EncodeToString]: three bytes give four digits,
    the last group is padded with [=]. *)
Fixpoint b64Encode (data : list Byte.byte) : string :=
  match data with
  | [] => EmptyString
  | [a] =>
      let x := Byte.to_N a in
      String (b64digit (x / 4)) (String (b64digit ((x mod 4) * 16)) "==")
  | [a; b] =>
      let x := Byte.to_N a in
      let y := Byte.to_N b in
      String (b64digit (x / 4))
        (String (b64digit ((x mod 4) * 16 + y / 16))
           (String (b64digit ((y mod 16) * 4)) "="))
  | a :: b :: c :: rest =>
      let x := Byte.to_N a in
      let y := Byte.to_N b in
      let z := Byte.to_N c in
      String (b64digit (x / 4))
        (String (b64digit ((x mod 4) * 16 + y / 16))
           (String (b64digit ((y mod 16) * 4 + z / 64))
              (String (b64digit (z mod 64)) (b64Encode rest))))
  end.

End GoStr.

(** ** Values

    An attribute value is a Go [interface{}] holding one of the dynamic types
    of the BSON driver.  The switch of [toLegacyString] tells them apart, so
    the embedding is a tagged union with one constructor per dynamic type.
    The code never computes on a float, it only prints it: a float is kept as
    the text the verb [%v] prints for it.  [VOther] stands for a value of any
    further dynamic type, kept as its type name ([%T]) and its text ([%v]). *)

#[warnings="-register-all"]
Inductive Value : Type :=
| VNil
| VBool (b : bool)
| VInt (n : Z)
| VInt32 (n : Z)
| VInt64 (n : Z)
| VFloat32 (text : string)
| VFloat64 (text : string)
| VString (s : string)
| VDateTime (ms : Z)
| VBinary (Subtype : N) (Data : list Byte.byte)
| VObjectID (id : list Byte.byte)
| VTimestamp (T I : Z)
| VRegex (Pattern Options : string)
| VA (elems : list Value)
| VD (entries : list E)
| VE (entry : E)
| VOther (typeName text : string)
with E : Type :=
| mkE (Key : string) (Val : Value).

Definition Key (e : E) : string := let (k, _) := e in k.
Definition Val (e : E) : Value := let (_, v) := e in v.

(** [bson.D], an ordered document, and [bson.A], an array. *)
Abbreviation D := (list E).
Abbreviation A := (list Value).

(** ** Outcomes

    A call either returns, having written some lines to the process-wide
    logger (the diagnostic sink), or panics.  A panic unwinds the call: what
    the call had not written yet stays unwritten. *)

Inductive outcome (X : Type) : Type :=
| Done (x : X) (diag : list string)
| Panic (reason : string).
Arguments Done {X} x diag.
Arguments Panic {X} reason.

Definition ret {X} (x : X) : outcome X := Done x [].

Definition bind {X Y} (m : outcome X) (k : X -> outcome Y) : outcome Y :=
  match m with
  | Done x d1 =>
      match k x with
      | Done y d2 => Done y (d1 ++ d2)%list
      | Panic r => Panic r
      end
  | Panic r => Panic r
  end.

(** [log.Println] and [log.Printf]: one line to the diagnostic sink. *)
Definition logLine (line : string) : outcome unit := Done tt [line].

Notation "'let*' x ':=' m 'in' k" := (bind m (fun x => k))
  (at level 10, x name, m at level 100, k at level 200, only parsing).

(** A slice expression [x[lo:hi]] on a string panics out of bounds. *)
Definition slice (x : string) (lo hi : Z) : outcome string :=
  if (0 <=? lo) && (lo <=? hi) && (hi <=? GoStr.len x)
  then ret (String.substring (Z.to_nat lo) (Z.to_nat (hi - lo)) x)
  else Panic "slice bounds out of range".

(** An index expression [toks[i]] on a slice of strings panics out of range. *)
Definition at_index (toks : list string) (i : nat) : outcome string :=
  match nth_error toks i with
  | Some tok => ret tok
  | None => Panic "index out of range"
  end.

(** A type assertion [v.(string)] without the second result panics on any
    other dynamic type. *)
Definition assertString (v : Value) : outcome string :=
  match v with
  | VString s => ret s
  | _ => Panic "interface conversion: not a string"
  end.

(** ** The verb [%v] of [fmt]

    The default format of a value: numbers in decimal, strings as they are,
    a slice as its elements between brackets, a struct as its fields between
    braces, nil as [<nil>]; [primitive.ObjectID] and [primitive.Regex] print
    through their [String] methods. *)

Fixpoint fmtV (v : Value) : string :=
  let fmtE (e : E) : string :=
    match e with mkE k x => "{" ++ k ++ " " ++ fmtV x ++ "}" end in
  match v with
  | VNil => "<nil>"
  | VBool true => "true"
  | VBool false => "false"
  | VInt n | VInt32 n | VInt64 n | VDateTime n => GoStr.itoa n
  | VFloat32 t | VFloat64 t => t
  | VString s => s
  | VBinary st data =>
      "{" ++ GoStr.itoa (Z.of_N st) ++ " ["
          ++ GoStr.Join (List.map (fun b => GoStr.itoa (Z.of_N (Byte.to_N b))) data) " "
          ++ "]}"
  | VObjectID id => "ObjectID(" ++ GoStr.dq ++ GoStr.hexEncode id ++ GoStr.dq ++ ")"
  | VTimestamp t i => "{" ++ GoStr.itoa t ++ " " ++ GoStr.itoa i ++ "}"
  | VRegex p o =>
      "{" ++ GoStr.dq ++ "pattern" ++ GoStr.dq ++ ": " ++ GoStr.dq ++ p ++ GoStr.dq
          ++ ", " ++ GoStr.dq ++ "options" ++ GoStr.dq ++ ": " ++ GoStr.dq ++ o ++ GoStr.dq ++ "}"
  | VA elems => "[" ++ GoStr.Join (List.map fmtV elems) " " ++ "]"
  | VD entries => "[" ++ GoStr.Join (List.map fmtE entries) " " ++ "]"
  | VE e => fmtE e
  | VOther _ t => t
  end.

(** ** toLegacyString (legacy.go, lines 98-154)

    The result is an [interface{}]: a Go string, here [VString], or the
    argument itself. *)

Section Loops.
Context {X Y : Type} (f : X -> outcome Y).

(** A [for ... range] loop that appends one rendered string per element. *)
Fixpoint forEach (l : list X) : outcome (list Y) :=
  match l with
  | [] => ret []
  | x :: rest =>
      let* y := f x in
      let* ys := forEach rest in
      ret (y :: ys)
  end.
End Loops.

Fixpoint toLegacyString (o : Value) : outcome Value :=
  match o with
  | VNil => ret o
  | VBool _ => ret (VString (" " ++ fmtV o))
  | VA data =>
      let* arrays := forEach (fun list =>
        let* arr := match list with
               | VD entries =>
                   forEach (fun doc =>
                     match doc with
                     | mkE k v =>
                         let* r := toLegacyString v in
                         ret ("{ " ++ k ++ ":" ++ fmtV r ++ " }")
                     end) entries
               | _ =>
                   let* r := toLegacyString list in
                   ret [fmtV r]
               end in
        ret (GoStr.Join arr ", ")) data in
      ret (VString ("[" ++ GoStr.Join arrays ", " ++ "]"))
  | VD data =>
      let* arr := forEach (fun doc =>
        match doc with
        | mkE k v =>
            let* r := toLegacyString v in
            ret (k ++ ":" ++ fmtV r)
        end) data in
      ret (VString (" { " ++ GoStr.Join arr ", " ++ " }"))
  | VE (mkE k v) =>
      let* val := toLegacyString v in
      if 0 <? GoStr.Index k "."
      then ret (VString (" { " ++ GoStr.dq ++ k ++ GoStr.dq ++ ":" ++ fmtV val ++ " } "))
      else ret (VString (" { " ++ k ++ ":" ++ fmtV val ++ " } "))
  | VInt _ | VInt32 _ | VInt64 _ | VFloat32 _ | VFloat64 _ => ret o
  | VBinary st data =>
      if (st =? 0)%N then
        let x := GoStr.b64Encode data in
        ret (VString ("{ $binary:{ base64: " ++ GoStr.dq ++ x ++ GoStr.dq ++ ", subtype:0}}"))
      else if (st =? 4)%N then
        let x := GoStr.hexEncode data in
        let* g1 := slice x 0 8 in
        let* g2 := slice x 8 12 in
        let* g3 := slice x 12 16 in
        let* g4 := slice x 16 20 in
        let* g5 := slice x 20 (GoStr.len x) in
        ret (VString ("{ $uuid: " ++ GoStr.dq ++ g1 ++ "-" ++ g2 ++ "-" ++ g3 ++ "-" ++ g4
                        ++ "-" ++ g5 ++ GoStr.dq ++ "}"))
      else
        let* _ := logLine ("unhandled subtype " ++ GoStr.itoa (Z.of_N st)) in
        ret o
  | VObjectID id =>
      ret (VString ("{ $oid: " ++ GoStr.dq ++ GoStr.hexEncode id ++ GoStr.dq ++ "}"))
  | VTimestamp t i =>
      ret (VString ("{ t:" ++ GoStr.itoa t ++ ", i:" ++ GoStr.itoa i ++ "}"))
  | VString _ | VDateTime _ =>
      ret (VString (" " ++ GoStr.dq ++ fmtV o ++ GoStr.dq))
  | VRegex p opts => ret (VString (" /" ++ p ++ "/" ++ opts))
  | VOther ty text =>
      let* _ := logLine ("unhandled data type " ++ ty ++ ", " ++ text) in
      ret o
  end.

(** ** Records

    [Logv2Info] and [Remote] are declared in another file of the package;
    the embedding has the fields that legacy.go reads and writes. *)

Module Remote.
(** Modelled from the spec: the type declaration of [Remote] is missing;
    the specification lists a host string [Value], a port string [Port],
    the flags [Accepted] and [Ended] and the connection count [Conns]. *)
Record t : Type := mk {
  Value : string;
  Port : string;
  Accepted : Z;
  Ended : Z;
  Conns : Z
}.

(** [Remote{}], the zero value. *)
Definition zero : t := mk EmptyString EmptyString 0 0 0.

Definition setValue (r : t) (v : string) : t := mk v (Port r) (Accepted r) (Ended r) (Conns r).
Definition setPort (r : t) (p : string) : t := mk (Value r) p (Accepted r) (Ended r) (Conns r).
Definition setAccepted (r : t) (n : Z) : t := mk (Value r) (Port r) n (Ended r) (Conns r).
Definition setEnded (r : t) (n : Z) : t := mk (Value r) (Port r) (Accepted r) n (Conns r).
Definition setConns (r : t) (n : Z) : t := mk (Value r) (Port r) (Accepted r) (Ended r) n.
End Remote.

(** The [error] interface; [None] is [nil]. *)
Definition error : Type := option string.

(** Modelled from the spec: the type declaration of [Logv2Info] is missing;
    the specification lists the tags [Component] and [Msg], the ordered
    attributes [Attr], the rendered line [Message] and the optional side
    artifact [Remote], a pointer that is nil until it is attached. *)
Record Logv2Info : Type := mkLogv2Info {
  Component : string;
  Msg : string;
  Attr : D;
  Message : string;
  Remote : option Remote.t
}.

(** Modelled from the spec: the helper [ToInt] is defined in another file of
    the package.  The specification says that [Conns] is the open-connection
    count parsed from the [connectionCount] attribute: an integer attribute
    gives its number.  On every other value, where the specification is
    silent, the model gives 0. *)
Definition ToInt (num : Value) : Z :=
  match num with
  | VInt n | VInt32 n | VInt64 n => n
  | _ => 0
  end.

(** [bson.D.Map]: the document as a map; a later entry overwrites an
    earlier one with the same key. *)
Definition Map (d : D) : gmap string Value :=
  fold_left (fun m e => <[Key e := Val e]> m) d ∅.

(** A map index expression [m[k]]: nil for a key that is absent. *)
Definition mapIndex (m : gmap string Value) (k : string) : Value :=
  default VNil (m !! k).

Definition isNil (v : Value) : bool :=
  match v with VNil => true | _ => false end.

(** A [for _, attr := range doc.Attr] loop over a state. *)
Fixpoint rangeAttr {S : Type} (body : S -> E -> outcome S) (attrs : D) (s : S) : outcome S :=
  match attrs with
  | [] => ret s
  | attr :: rest =>
      let* s' := body s attr in
      rangeAttr body rest s'
  end.

(** [append(arr, tok)]. *)
Definition append (arr : list string) (tok : string) : list string := (arr ++ [tok])%list.

(** ** Notions used in the statements *)

(** The text of one entry inside a document: the key as it is, a colon and
    the rendering of the value. *)
Definition entryText (e : E) (s : string) : Prop :=
  exists r dg, toLegacyString (Val e) = Done r dg /\ s = Key e ++ ":" ++ fmtV r.

(** The layout that the specification gives for a document: the entries
    between braces with a space on both sides of each brace, and a key with
    a dot between double quotes.  [entries] pairs each key with the
    rendering of its value. *)
Definition specKey (k : string) : string :=
  if 0 <=? GoStr.Index k "." then GoStr.dq ++ k ++ GoStr.dq else k.

Definition specDocument (entries : list (string * string)) : string :=
  " { " ++ GoStr.Join (List.map (fun kv => specKey (fst kv) ++ ":" ++ snd kv) entries) ", " ++ " } ".

(** The text before the first colon. *)
Fixpoint hostPortion (s : string) : string :=
  match s with
  | EmptyString => EmptyString
  | String c rest => if Ascii.eqb c ":" then EmptyString else String c (hostPortion rest)
  end.

(** The value of the last attribute with the key [remote]. *)
Fixpoint lastRemote (attrs : D) : option Value :=
  match attrs with
  | [] => None
  | attr :: rest =>
      match lastRemote rest with
      | Some v => Some v
      | None => if String.eqb (Key attr) "remote" then Some (Val attr) else None
      end
  end.

(** The number of colons in a string. *)
Fixpoint countColons (s : string) : nat :=
  match s with
  | EmptyString => 0
  | String c rest => if Ascii.eqb c ":" then S (countColons rest) else countColons rest
  end.

(** Every attribute with the key [remote] holds a string with exactly one
    colon. *)
Definition remotesHaveOneColon (attrs : D) : Prop :=
  Forall (fun attr => Key attr = "remote" ->
            exists s, Val attr = VString s /\ countColons s = 1%nat) attrs.

(** The side condition of the specification: some attribute with the key
    [remote] holds a string whose host portion is not empty. *)
Definition hasRemoteHost (attrs : D) : Prop :=
  exists attr s,
    In attr attrs /\ Key attr = "remote" /\ Val attr = VString s
    /\ hostPortion s <> EmptyString.

(** The writes of a call: a message, or none, and a pointer, or none. *)
Definition written (wm : option string) (wr : option Remote.t) (doc : Logv2Info) : Logv2Info :=
  mkLogv2Info (Component doc) (Msg doc) (Attr doc)
    (match wm with Some m => m | None => Message doc end)
    (match wr with Some r => Some r | None => Remote doc end).

(** A call returns when it does not panic. *)
Definition returns {X : Type} (m : outcome X) : Prop := exists x d, m = Done x d.

(** A binary value of subtype 4 with fewer than 10 bytes, here or in any
    array, document or entry below. *)
Fixpoint hasShortUUID (v : Value) : bool :=
  match v with
  | VBinary st data => (st =? 4)%N && (List.length data <? 10)%nat
  | VA elems => existsb hasShortUUID elems
  | VD entries => existsb (fun e => match e with mkE _ x => hasShortUUID x end) entries
  | VE (mkE _ x) => hasShortUUID x
  | _ => false
  end.

(** A binary value of a subtype other than 0 and 4, or a value of a type
    that the switch does not list, here or in any array, document or entry
    below. *)
Fixpoint hasUnhandled (v : Value) : bool :=
  match v with
  | VBinary st _ => negb (st =? 0)%N && negb (st =? 4)%N
  | VOther _ _ => true
  | VA elems => existsb hasUnhandled elems
  | VD entries => existsb (fun e => match e with mkE _ x => hasUnhandled x end) entries
  | VE (mkE _ x) => hasUnhandled x
  | _ => false
  end.

(** The values that the switch returns as they are: nil, the numbers, a
    binary value of an unhandled subtype and a value of an unlisted type. *)
Definition passesThrough (v : Value) : bool :=
  match v with
  | VNil | VInt _ | VInt32 _ | VInt64 _ | VFloat32 _ | VFloat64 _ | VOther _ _ => true
  | VBinary st _ => negb (st =? 0)%N && negb (st =? 4)%N
  | _ => false
  end.

(** The text of one slot of an array: the rendering of the element, or,
    for a document, its entries each between braces of their own. *)
Definition wrappedEntryText (e : E) (s : string) : Prop :=
  exists r dg, toLegacyString (Val e) = Done r dg /\ s = "{ " ++ Key e ++ ":" ++ fmtV r ++ " }".

Definition slotText (elem : Value) (s : string) : Prop :=
  match elem with
  | VD entries => exists arr, Forall2 wrappedEntryText entries arr /\ s = GoStr.Join arr ", "
  | _ => exists r dg, toLegacyString elem = Done r dg /\ s = fmtV r
  end.

(** Lines 107-114, the strings that one element of an array gives, as
    [toLegacyString] computes them. *)
Definition renderSlot (elem : Value) : outcome (list string) :=
  match elem with
  | VD entries =>
      forEach (fun doc =>
        match doc with
        | mkE k v =>
            let* r := toLegacyString v in
            ret ("{ " ++ k ++ ":" ++ fmtV r ++ " }")
        end) entries
  | _ =>
      let* r := toLegacyString elem in
      ret [fmtV r]
  end.

(** The value of the last attribute with the key [k]. *)
Fixpoint lastValue (k : string) (attrs : D) : option Value :=
  match attrs with
  | [] => None
  | attr :: rest =>
      match lastValue k rest with
      | Some v => Some v
      | None => if String.eqb (Key attr) k then Some (Val attr) else None
      end
  end.

(** An attribute that the loop of a NETWORK record gets through: any
    attribute with another key than [remote], and a [remote] attribute that
    holds a string with a colon. *)
Definition remoteSplits (attr : E) : Prop :=
  Key attr = "remote" -> exists s, Val attr = VString s /\ (1 <= countColons s)%nat.

(** An attribute that the loop of the default rule gets through: a [type]
    or [ns] attribute that holds a string, a [durationMillis] attribute, and
    any other attribute whose value the serializer renders. *)
Definition defaultAttrOk (attr : E) : Prop :=
  if String.eqb (Key attr) "type" || String.eqb (Key attr) "ns"
  then exists s, Val attr = VString s
  else if String.eqb (Key attr) "durationMillis" then True
  else hasShortUUID (Val attr) = false.

(** The keys that the rule of a component reads. *)
Definition recognizedKey (component key : string) : bool :=
  if String.eqb component "ACCESS" then
    String.eqb key "authenticationDatabase" || String.eqb key "principalName"
    || String.eqb key "remote" || String.eqb key "durationMillis"
  else if String.eqb component "NETWORK" then
    String.eqb key "remote" || String.eqb key "client" || String.eqb key "connectionId"
    || String.eqb key "connectionCount" || String.eqb key "doc"
  else true.

(** The record with other attributes. *)
Definition withAttr (doc : Logv2Info) (attrs : D) : Logv2Info :=
  mkLogv2Info (Component doc) (Msg doc) attrs (Message doc) (Remote doc).

(** The flags after the loop, by the message of the record. *)
Definition flagsFollow (msg : string) (r : Remote.t) : Prop :=
  if String.eqb msg "Connection ended"
  then Remote.Accepted r = 0 /\ (Remote.Value r <> EmptyString -> Remote.Ended r = 1)
  else Remote.Ended r = 0 /\ (Remote.Value r <> EmptyString -> Remote.Accepted r = 1).

(** An attribute that the default rule renders without a diagnostic: a
    [type], [ns] or [durationMillis] attribute, and any other attribute
    whose value holds nothing that the serializer does not handle. *)
Definition quietAttr (attr : E) : Prop :=
  if String.eqb (Key attr) "type" || String.eqb (Key attr) "ns" then True
  else if String.eqb (Key attr) "durationMillis" then True
  else hasUnhandled (Val attr) = false.

(** The token that the specification gives for one attribute of an ACCESS
    record: [on], [as principal], [from client] and the value, or the value
    and [ms], for the four keys that the rule knows, and none for any other
    key.  The value stands as the verb [%v] prints it. *)
Definition specAccessToken (attr : E) : option string :=
  if String.eqb (Key attr) "authenticationDatabase" then Some ("on " ++ fmtV (Val attr))
  else if String.eqb (Key attr) "principalName" then Some ("as principal " ++ fmtV (Val attr))
  else if String.eqb (Key attr) "remote" then Some ("from client " ++ fmtV (Val attr))
  else if String.eqb (Key attr) "durationMillis" then Some (fmtV (Val attr) ++ "ms")
  else None.

(** The tokens of the attributes of an ACCESS record, in the order of the
    attributes. *)
Fixpoint specAccessTokens (attrs : D) : list string :=
  match attrs with
  | [] => []
  | attr :: rest =>
      match specAccessToken attr with
      | Some tok => tok :: specAccessTokens rest
      | None => specAccessTokens rest
      end
  end.

(** ** Sample records and a driver for the closed examples *)

(** An encoder that fails on every value: no bytes and an error.  The closed
    examples at the end of the file run [AddLegacyString] with it; none of
    their records has a [doc] attribute, so that it is never called. *)
Definition failingExtJSON (val : Value) (canonical escapeHTML : bool) : string * error :=
  (EmptyString, Some "cannot marshal").

(** The record of the scenario [Connection accepted]. *)
Definition sampleAccepted : Logv2Info :=
  mkLogv2Info "NETWORK" "Connection accepted"
    [mkE "remote" (VString "127.0.0.1:54321"); mkE "connectionId" (VInt32 7)]
    EmptyString None.

(** The same record after an earlier rendering. *)
Definition sampleAcceptedAgain : Logv2Info :=
  mkLogv2Info "NETWORK" "Connection accepted"
    [mkE "remote" (VString "127.0.0.1:54321"); mkE "connectionId" (VInt32 7)]
    "an older line" (Some (Remote.mk "10.0.0.1" "1" 0 1 2)).

(** The record [sampleAccepted] after its rendering. *)
Definition sampleAcceptedRendered : Logv2Info :=
  mkLogv2Info "NETWORK" "Connection accepted"
    [mkE "remote" (VString "127.0.0.1:54321"); mkE "connectionId" (VInt32 7)]
    "connection accepted from 127.0.0.1:54321 #7"
    (Some (Remote.mk "127.0.0.1" "54321" 1 0 0)).

(** An ACCESS record with an attribute that its rule does not read. *)
Definition sampleAccess : Logv2Info :=
  mkLogv2Info "ACCESS" "Authentication succeeded"
    [mkE "mechanism" (VString "SCRAM-SHA-256");
     mkE "principalName" (VString "alice");
     mkE "authenticationDatabase" (VString "admin")]
    EmptyString None.

(** A CONTROL record with a host and two [pid] attributes. *)
Definition sampleControl : Logv2Info :=
  mkLogv2Info "CONTROL" "MongoDB starting"
    [mkE "pid" (VInt32 1); mkE "port" (VInt32 27017); mkE "pid" (VInt32 1234);
     mkE "host" (VString "x.example.com")]
    EmptyString None.

(** A record of a component under the default rule. *)
Definition sampleCommand : Logv2Info :=
  mkLogv2Info "COMMAND" "Slow query"
    [mkE "type" (VString "command"); mkE "ns" (VString "test.coll");
     mkE "command" (VD [mkE "find" (VString "coll"); mkE "limit" (VInt32 1)]);
     mkE "durationMillis" (VInt32 12)]
    EmptyString None.

(** ** AddLegacyString (legacy.go, lines 17-96) *)

Section Legacy.

(** [bson.MarshalExtJSON] of the driver, with its bytes as a string and
    its error. *)
Variable MarshalExtJSON : Value -> bool -> bool -> string * error.

(** Lines 22-32: the token that the message gives. *)
Definition messageTokens (msg : string) : list string :=
  if negb (String.eqb msg "Slow query") then
    if String.eqb msg "Connection ended" then append [] "end connection"
    else if String.eqb msg "Connection accepted" then append [] "connection accepted"
    else if String.eqb msg "Authentication succeeded" then append [] "Successfully authenticated"
    else append [] msg
  else [].

(** Lines 35-36: the one token of a CONTROL record with a host. *)
Definition controlToken (attrMap : gmap string Value) : string :=
  "pid=" ++ fmtV (mapIndex attrMap "pid")
    ++ " port=" ++ fmtV (mapIndex attrMap "port")
    ++ " " ++ fmtV (mapIndex attrMap "architecture")
    ++ " host=" ++ fmtV (mapIndex attrMap "host").

(** Lines 39-47: the body of the loop of an ACCESS record. *)
Definition accessAttr (arr : list string) (attr : E) : outcome (list string) :=
  if String.eqb (Key attr) "authenticationDatabase" then
    ret (append arr ("on " ++ fmtV (Val attr)))
  else if String.eqb (Key attr) "principalName" then
    ret (append arr ("as principal " ++ fmtV (Val attr)))
  else if String.eqb (Key attr) "remote" then
    ret (append arr ("from client " ++ fmtV (Val attr)))
  else if String.eqb (Key attr) "durationMillis" then
    ret (append arr (fmtV (Val attr) ++ "ms"))
  else ret arr.

(** Lines 52-73: the body of the loop of a NETWORK record, on the local
    [remote] and the tokens. *)
Definition networkAttr (msg : string) (st : Remote.t * list string) (attr : E)
  : outcome (Remote.t * list string) :=
  let (remote, arr) := st in
  if String.eqb (Key attr) "remote" then
    let* s := assertString (Val attr) in
    let toks := GoStr.Split s ":" in
    let* t0 := at_index toks 0 in
    let remote := Remote.setValue remote t0 in
    let* t1 := at_index toks 1 in
    let remote := Remote.setPort remote t1 in
    if String.eqb msg "Connection ended" then
      ret (Remote.setEnded remote 1, append arr (fmtV (Val attr)))
    else
      ret (Remote.setAccepted remote 1, append arr ("from " ++ fmtV (Val attr)))
  else if String.eqb (Key attr) "client" then
    ret (remote, append arr (fmtV (Val attr) ++ ":"))
  else if String.eqb (Key attr) "connectionId" && negb (String.eqb msg "Connection ended") then
    ret (remote, append arr ("#" ++ fmtV (Val attr)))
  else if String.eqb (Key attr) "connectionCount" then
    let arr := append arr ("(" ++ fmtV (Val attr) ++ " connections now open)") in
    ret (Remote.setConns remote (ToInt (Val attr)), arr)
  else if String.eqb (Key attr) "doc" then
    let (b, _) := MarshalExtJSON (Val attr) false false in
    ret (remote, append arr b)
  else ret (remote, arr).

(** Lines 80-87: the body of the loop of a record of any other component. *)
Definition defaultAttr (arr : list string) (attr : E) : outcome (list string) :=
  if String.eqb (Key attr) "type" || String.eqb (Key attr) "ns" then
    let* str := assertString (Val attr) in
    ret (append arr str)
  else if String.eqb (Key attr) "durationMillis" then
    ret (append arr (fmtV (Val attr) ++ "ms"))
  else
    let* r := toLegacyString (Val attr) in
    ret (append arr (Key attr ++ ":" ++ fmtV r)).

(** Lines 19-89: the tokens of the record, and the pointer that line 76
    stores in [doc.Remote], if it does. *)
Definition legacyTokens (doc : Logv2Info) : outcome (list string * option Remote.t) :=
  let attrMap := Map (Attr doc) in
  let arr := messageTokens (Msg doc) in
  if String.eqb (Component doc) "CONTROL" && negb (isNil (mapIndex attrMap "host")) then
    ret (append arr (controlToken attrMap), None)
  else if String.eqb (Component doc) "ACCESS" then
    let* arr := rangeAttr accessAttr (Attr doc) arr in
    ret (arr, None)
  else if String.eqb (Component doc) "NETWORK" then
    let* st := rangeAttr (networkAttr (Msg doc)) (Attr doc) (Remote.zero, arr) in
    let (remote, arr) := st in
    if negb (String.eqb (Remote.Value remote) EmptyString)
    then ret (arr, Some remote)
    else ret (arr, None)
  else
    let* arr := rangeAttr defaultAttr (Attr doc) arr in
    ret (arr, None).

Definition setRemote (doc : Logv2Info) (p : option Remote.t) : Logv2Info :=
  match p with
  | Some r => mkLogv2Info (Component doc) (Msg doc) (Attr doc) (Message doc) (Some r)
  | None => doc
  end.

Definition setMessage (doc : Logv2Info) (m : string) : Logv2Info :=
  mkLogv2Info (Component doc) (Msg doc) (Attr doc) m (Remote doc).

(** The whole function: the record after the call and the error returned.
    On a panic the record is as it was: lines 76 and 94, the only writes,
    come after every operation that can panic. *)
Definition AddLegacyString (doc : Logv2Info) : outcome (Logv2Info * error) :=
  let err : error := None in
  let* res := legacyTokens doc in
  let (arr, p) := res in
  let doc := setRemote doc p in
  if (length arr =? 0)%nat then ret (doc, None)
  else ret (setMessage doc (GoStr.Join arr " "), err).

(** ** The model on concrete inputs *)

Example Split_two : GoStr.Split "127.0.0.1:54321" ":" = ["127.0.0.1"; "54321"].
Proof. reflexivity. Qed.

Example Split_none : GoStr.Split "localhost" ":" = ["localhost"].
Proof. reflexivity. Qed.

Example Split_edges : GoStr.Split ":a:" ":" = [EmptyString; "a"; EmptyString].
Proof. reflexivity. Qed.

Example itoa_values : (GoStr.itoa 0, GoStr.itoa 27017, GoStr.itoa (-5)) = ("0", "27017", "-5").
Proof. reflexivity. Qed.

Example hexEncode_bytes : GoStr.hexEncode [Byte.x00; Byte.x1a; Byte.xff] = "001aff".
Proof. reflexivity. Qed.

Example b64Encode_Man :
  (GoStr.b64Encode [Byte.x4d; Byte.x61; Byte.x6e],
   GoStr.b64Encode [Byte.x4d; Byte.x61],
   GoStr.b64Encode [Byte.x4d]) = ("TWFu", "TWE=", "TQ==").
Proof. reflexivity. Qed.

Example Index_values :
  (GoStr.Index "a.b" ".", GoStr.Index ".ab" ".", GoStr.Index "ab" ".") = (1, 0, -1).
Proof. reflexivity. Qed.

Example render_scalars :
  (toLegacyString (VBool true), toLegacyString (VInt32 7), toLegacyString (VString "x"))
  = (Done (VString " true") [], Done (VInt32 7) [],
     Done (VString (" " ++ GoStr.dq ++ "x" ++ GoStr.dq)) []).
Proof. reflexivity. Qed.

Example render_document :
  toLegacyString (VD [mkE "a" (VInt32 1); mkE "b.c" (VBool false)])
  = Done (VString " { a:1, b.c: false }") [].
Proof. reflexivity. Qed.

Example render_array :
  toLegacyString (VA [VInt32 1; VD [mkE "a" (VInt32 1); mkE "b" (VInt32 2)]])
  = Done (VString "[1, { a:1 }, { b:2 }]") [].
Proof. reflexivity. Qed.

Example render_uuid :
  toLegacyString
    (VBinary 4 [Byte.x00; Byte.x11; Byte.x22; Byte.x33; Byte.x44; Byte.x55; Byte.x66; Byte.x77;
                Byte.x88; Byte.x99; Byte.xaa; Byte.xbb; Byte.xcc; Byte.xdd; Byte.xee; Byte.xff])
  = Done (VString ("{ $uuid: " ++ GoStr.dq ++ "00112233-4455-6677-8899-aabbccddeeff"
                     ++ GoStr.dq ++ "}")) [].
Proof. reflexivity. Qed.

Example render_unhandled_subtype :
  toLegacyString (VBinary 128 [Byte.x01])
  = Done (VBinary 128 [Byte.x01]) ["unhandled subtype 128"].
Proof. reflexivity. Qed.

Example render_entry_leading_dot :
  (GoStr.Index ".a.b" ".", toLegacyString (VE (mkE ".a.b" (VInt32 1))))
  = (0, Done (VString " { .a.b:1 } ") []).
Proof. reflexivity. Qed.

  (** ** Outcomes: inversion and unfolding lemmas *)

Lemma bind_Done {X Y} (m : outcome X) (k : X -> outcome Y) y d :
  bind m k = Done y d ->
  exists x d1 d2, m = Done x d1 /\ k x = Done y d2 /\ d = (d1 ++ d2)%list.
Proof.
  unfold bind. destruct m as [x d1|r]; [|discriminate].
  destruct (k x) as [y' d2|r] eqn:Hk; [|discriminate].
  intros [= <- <-]. exists x, d1, d2. auto.
Qed.

Lemma bind_Panic_l {X Y} (m : outcome X) (k : X -> outcome Y) r :
  m = Panic r -> bind m k = Panic r.
Proof. intros ->. reflexivity. Qed.

Lemma bind_Done_l {X Y} (m : outcome X) (k : X -> outcome Y) x d :
  m = Done x d -> bind m k = bind (Done x d) k.
Proof. intros ->. reflexivity. Qed.

Lemma bind_ret_nil {X Y} (x : X) (k : X -> outcome Y) y :
  k x = Done y [] -> bind (Done x []) k = Done y [].
Proof. unfold bind. intros ->. reflexivity. Qed.

Lemma toLegacyString_VD (data : D) :
  toLegacyString (VD data) =
  let* arr := forEach (fun doc =>
                match doc with
                | mkE k v => let* r := toLegacyString v in ret (k ++ ":" ++ fmtV r)
                end) data in
  ret (VString (" { " ++ GoStr.Join arr ", " ++ " }")).
Proof. reflexivity. Qed.

Lemma forEach_entries (d : D) (arr : list string) :
  Forall2 entryText d arr ->
  exists diag,
    forEach (fun doc =>
      match doc with
      | mkE k v => let* r := toLegacyString v in ret (k ++ ":" ++ fmtV r)
      end) d = Done arr diag.
Proof.
  induction 1 as [|e s d arr (r & dg & Hr & ->) _ (diag & IH)]; simpl.
  - eexists. reflexivity.
  - destruct e as [k v]. simpl in Hr |- *.
    rewrite Hr. simpl. rewrite IH. simpl. eexists. reflexivity.
Qed.

(** ** toLegacyString: documents *)

(** C1, as the code has it.  A document whose values render is rendered as
    a space, an opening brace, a space, the entries [key:rendering] joined
    by a comma and a space, a space and the closing brace: one space inside
    each brace, none after the closing brace, and every key as it is, with
    or without a dot.  A single entry passed as a value of its own is
    rendered between braces with a space on both outer sides: its key
    stands between double quotes when it holds a dot and does not start
    with one, which is the test [strings.Index(key, ".") > 0] of line 126,
    and as it is when it holds no dot. *)
Theorem document_layout (d : D) (arr : list string) (kq kp : string) (v r : Value)
    (dg : list string) :
  Forall2 entryText d arr ->
  toLegacyString v = Done r dg ->
  0 < GoStr.Index kq "." ->
  GoStr.Index kp "." < 0 ->
  (exists diag,
     toLegacyString (VD d) = Done (VString (" { " ++ GoStr.Join arr ", " ++ " }")) diag)
  /\ toLegacyString (VE (mkE kq v))
     = Done (VString (" { " ++ GoStr.dq ++ kq ++ GoStr.dq ++ ":" ++ fmtV r ++ " } ")) dg
  /\ toLegacyString (VE (mkE kp v))
     = Done (VString (" { " ++ kp ++ ":" ++ fmtV r ++ " } ")) dg.
Proof.
  intros Hd Hv Hq Hp. split; [|split].
  - destruct (forEach_entries d arr Hd) as [diag Hfe].
    rewrite toLegacyString_VD, Hfe. simpl. eexists. reflexivity.
  - apply Z.ltb_lt in Hq. simpl. rewrite Hv. simpl. rewrite Hq.
    simpl. rewrite app_nil_r. reflexivity.
  - assert ((0 <? GoStr.Index kp ".") = false) as Hp' by (apply Z.ltb_ge; lia).
    simpl. rewrite Hv. simpl. rewrite Hp'. simpl. rewrite app_nil_r. reflexivity.
Qed.

(** C1 fails as it is stated: the document with the one entry [a.b:1] is
    rendered with its key as it is and without a space after the closing
    brace, not in the layout of the specification. *)
Lemma document_layout_counterexample :
  toLegacyString (VD [mkE "a.b" (VInt32 1)]) = Done (VString " { a.b:1 }") []
  /\ specDocument [("a.b", "1")] = " { " ++ GoStr.dq ++ "a.b" ++ GoStr.dq ++ ":1 } "
  /\ toLegacyString (VD [mkE "a.b" (VInt32 1)])
     <> Done (VString (specDocument [("a.b", "1")])) [].
Proof. split; [reflexivity | split; [reflexivity | vm_compute; discriminate]]. Qed.

(** ** toLegacyString: binary values of subtype 4 *)

Lemma slice_out_of_bounds (x : string) (lo hi : Z) :
  GoStr.len x < hi -> slice x lo hi = Panic "slice bounds out of range".
Proof.
  intros H. unfold slice.
  replace (hi <=? GoStr.len x) with false by (symmetry; apply Z.leb_gt; exact H).
  rewrite andb_false_r. reflexivity.
Qed.

Lemma len_hexEncode (data : list Byte.byte) :
  GoStr.len (GoStr.hexEncode data) = 2 * Z.of_nat (List.length data).
Proof.
  unfold GoStr.len. induction data as [|b rest IH]; [reflexivity|].
  cbn [GoStr.hexEncode String.length List.length]. lia.
Qed.

Lemma toLegacyString_uuid (data : list Byte.byte) :
  toLegacyString (VBinary 4 data) =
  let x := GoStr.hexEncode data in
  let* g1 := slice x 0 8 in
  let* g2 := slice x 8 12 in
  let* g3 := slice x 12 16 in
  let* g4 := slice x 16 20 in
  let* g5 := slice x 20 (GoStr.len x) in
  ret (VString ("{ $uuid: " ++ GoStr.dq ++ g1 ++ "-" ++ g2 ++ "-" ++ g3 ++ "-" ++ g4
                  ++ "-" ++ g5 ++ GoStr.dq ++ "}")).
Proof. reflexivity. Qed.

(** C10.  A binary value of subtype 4 whose payload has fewer than 10 bytes
    makes the serializer panic: its hexadecimal text has fewer than 20
    digits, and one of the slices [x[:8]], [x[8:12]], [x[12:16]],
    [x[16:20]] is out of bounds.  Nothing is rendered and no diagnostic
    takes the place of the rendering. *)
Theorem uuid_short_payload_panics (data : list Byte.byte) :
  (List.length data < 10)%nat ->
  exists reason, toLegacyString (VBinary 4 data) = Panic reason.
Proof.
  intros Hlen. rewrite toLegacyString_uuid. cbv zeta.
  assert (slice (GoStr.hexEncode data) 16 20 = Panic "slice bounds out of range") as H4.
  { apply slice_out_of_bounds. rewrite len_hexEncode. lia. }
  destruct (slice (GoStr.hexEncode data) 0 8) as [g1 d1|r1]; [|eexists; reflexivity].
  destruct (slice (GoStr.hexEncode data) 8 12) as [g2 d2|r2]; [|eexists; reflexivity].
  destruct (slice (GoStr.hexEncode data) 12 16) as [g3 d3|r3]; [|eexists; reflexivity].
  rewrite H4. eexists. reflexivity.
Qed.

(** ** The loop of a NETWORK record *)

Lemma Split_hostPortion (s : string) :
  exists toks, GoStr.Split s ":" = hostPortion s :: toks.
Proof.
  induction s as [|c rest [toks IH]]; simpl.
  - eexists. reflexivity.
  - destruct (Ascii.eqb c ":"); [eexists; reflexivity|].
    rewrite IH. eexists. reflexivity.
Qed.

(** What one round of the loop does: on a [remote] attribute, a string with
    at least two pieces, it stores the first two pieces and the flag and
    appends one token; on any other attribute it leaves host, port and
    flags as they are.  No round writes to the diagnostic sink. *)
Lemma networkAttr_Done msg r arr attr r' arr' d :
  networkAttr msg (r, arr) attr = Done (r', arr') d ->
  d = [] /\
  ((Key attr = "remote" /\
    exists s host port more,
      Val attr = VString s /\ GoStr.Split s ":" = host :: port :: more /\
      Remote.Value r' = host /\ Remote.Port r' = port /\
      Remote.Conns r' = Remote.Conns r /\
      (if String.eqb msg "Connection ended"
       then Remote.Ended r' = 1 /\ Remote.Accepted r' = Remote.Accepted r /\ arr' = append arr s
       else Remote.Accepted r' = 1 /\ Remote.Ended r' = Remote.Ended r
            /\ arr' = append arr ("from " ++ s)))
   \/
   (Key attr <> "remote" /\
    Remote.Value r' = Remote.Value r /\ Remote.Port r' = Remote.Port r /\
    Remote.Accepted r' = Remote.Accepted r /\ Remote.Ended r' = Remote.Ended r)).
Proof.
  unfold networkAttr.
  destruct (String.eqb (Key attr) "remote") eqn:Hk.
  - apply String.eqb_eq in Hk.
    destruct (Val attr) eqn:Hv; try discriminate.
    cbn [assertString]. unfold ret at 1. cbn [bind].
    destruct (GoStr.Split s ":") as [|host [|port more]] eqn:Hs; try discriminate.
    cbn [at_index nth_error]. unfold ret at 1 2. cbn [bind].
    destruct (String.eqb msg "Connection ended"); cbn [ret fmtV];
      intros [= <- <- <-]; (split; [reflexivity|]); left; (split; [exact Hk|]);
      exists s, host, port, more; cbn; auto 10.
  - apply String.eqb_neq in Hk.
    destruct (String.eqb (Key attr) "client");
      [|destruct (String.eqb (Key attr) "connectionId" && negb (String.eqb msg "Connection ended"));
        [|destruct (String.eqb (Key attr) "connectionCount");
          [|destruct (String.eqb (Key attr) "doc");
            [destruct (MarshalExtJSON (Val attr) false false)|]]]];
      intros [= <- <- <-]; (split; [reflexivity|]); right; (split; [exact Hk|]);
      cbn; auto.
Qed.

Lemma rangeAttr_cons {S : Type} (body : S -> E -> outcome S) attr rest (s : S) :
  rangeAttr body (attr :: rest) s = bind (body s attr) (rangeAttr body rest).
Proof. reflexivity. Qed.

(** The loop writes nothing to the diagnostic sink, and the host it leaves
    in [remote] is the host portion of the last [remote] attribute. *)
Lemma network_loop_host msg attrs :
  forall r arr r' arr' d,
    rangeAttr (networkAttr msg) attrs (r, arr) = Done (r', arr') d ->
    d = [] /\
    match lastRemote attrs with
    | None => Remote.Value r' = Remote.Value r
    | Some v => exists s, v = VString s /\ Remote.Value r' = hostPortion s
    end.
Proof.
  induction attrs as [|attr rest IH]; intros r arr r' arr' d H.
  - injection H as <- <- <-. split; reflexivity.
  - rewrite rangeAttr_cons in H.
    apply bind_Done in H as ([r1 arr1] & d1 & d2 & Hstep & Hrest & ->).
    apply networkAttr_Done in Hstep as (-> & Hstep).
    apply IH in Hrest as (-> & Hrest).
    split; [reflexivity|]. cbn [lastRemote].
    destruct (lastRemote rest) as [v|]; [exact Hrest|].
    destruct Hstep as [(Hk & s & host & port & more & Hv & Hs & Hhost & _)
                      |(Hk & Hval & _)].
    + apply String.eqb_eq in Hk. rewrite Hk. exists s. split; [exact Hv|].
      destruct (Split_hostPortion s) as [toks Ht]. rewrite Ht in Hs.
      injection Hs as Hh _. congruence.
    + apply String.eqb_neq in Hk. rewrite Hk. congruence.
Qed.

(** In a record whose message is [Connection ended] the loop never sets
    [Accepted], and a host that it stores comes with [Ended] set. *)
Lemma network_loop_ended attrs :
  forall r arr r' arr' d,
    rangeAttr (networkAttr "Connection ended") attrs (r, arr) = Done (r', arr') d ->
    Remote.Accepted r = 0 ->
    (Remote.Value r <> EmptyString -> Remote.Ended r = 1) ->
    Remote.Accepted r' = 0 /\ (Remote.Value r' <> EmptyString -> Remote.Ended r' = 1).
Proof.
  induction attrs as [|attr rest IH]; intros r arr r' arr' d H Hacc Hend.
  - injection H as <- <- <-. auto.
  - rewrite rangeAttr_cons in H.
    apply bind_Done in H as ([r1 arr1] & d1 & d2 & Hstep & Hrest & ->).
    apply networkAttr_Done in Hstep as (_ & Hstep).
    apply IH in Hrest; [exact Hrest| |].
    + destruct Hstep as [(_ & s & host & port & more & _ & _ & _ & _ & _ & Hflag)
                        |(_ & _ & _ & Ha & _)]; [|congruence].
      cbn in Hflag. destruct Hflag as (_ & Ha & _). congruence.
    + destruct Hstep as [(_ & s & host & port & more & _ & _ & _ & _ & _ & Hflag)
                        |(_ & Hv & _ & _ & He)].
      * cbn in Hflag. destruct Hflag as (He & _). intros _. exact He.
      * rewrite Hv, He. exact Hend.
Qed.

Lemma Split_length (s : string) :
  List.length (GoStr.Split s ":") = S (countColons s).
Proof.
  induction s as [|c rest IH]; [reflexivity|]. simpl.
  destruct (Ascii.eqb c ":"); simpl; [congruence|].
  destruct (GoStr.Split rest ":"); simpl in *; congruence.
Qed.

Lemma Split_one_colon (s : string) :
  countColons s = 1%nat -> exists host port, GoStr.Split s ":" = [host; port].
Proof.
  intros H. pose proof (Split_length s) as Hl. rewrite H in Hl.
  destruct (GoStr.Split s ":") as [|host [|port [|x more]]]; try discriminate.
  eauto.
Qed.

(** The pieces of a split, joined by the separator, are the string. *)
Lemma Join_Split (s : string) : GoStr.Join (GoStr.Split s ":") ":" = s.
Proof.
  induction s as [|c rest IH]; [reflexivity|]. cbn [GoStr.Split].
  pose proof (Split_length rest) as Hl.
  destruct (GoStr.Split rest ":") as [|tok toks]; [discriminate|].
  destruct (Ascii.eqb c ":") eqn:Hc.
  - apply Ascii.eqb_eq in Hc. subst c.
    change (GoStr.Join (EmptyString :: tok :: toks) ":")
      with (":" ++ GoStr.Join (tok :: toks) ":").
    rewrite IH. reflexivity.
  - rewrite <- IH. destruct toks; reflexivity.
Qed.

(** Under that condition no round of the loop panics. *)
Lemma network_loop_total msg attrs :
  remotesHaveOneColon attrs ->
  forall st, exists st', rangeAttr (networkAttr msg) attrs st = Done st' [].
Proof.
  induction 1 as [|attr rest Hattr _ IH]; intros [r arr].
  - eexists. reflexivity.
  - rewrite rangeAttr_cons.
    assert (exists st1, networkAttr msg (r, arr) attr = Done st1 []) as [st1 Hstep].
    { unfold networkAttr. destruct (String.eqb (Key attr) "remote") eqn:Hk.
      - apply String.eqb_eq in Hk. destruct (Hattr Hk) as (s & -> & Hone).
        cbn [assertString]. unfold ret at 1. cbn [bind].
        destruct (Split_one_colon s Hone) as (host & port & ->).
        cbn. destruct (String.eqb msg "Connection ended"); eexists; reflexivity.
      - destruct (String.eqb (Key attr) "client"); [eexists; reflexivity|].
        destruct (String.eqb (Key attr) "connectionId"
                  && negb (String.eqb msg "Connection ended")); [eexists; reflexivity|].
        destruct (String.eqb (Key attr) "connectionCount"); [eexists; reflexivity|].
        destruct (String.eqb (Key attr) "doc"); [|eexists; reflexivity].
        destruct (MarshalExtJSON (Val attr) false false). eexists. reflexivity. }
    rewrite Hstep. destruct (IH st1) as [st' Hrest].
    exists st'. cbn [bind]. rewrite Hrest. reflexivity.
Qed.

(** ** AddLegacyString: what a call that returns has done *)

Lemma AddLegacyString_Done doc doc' err d :
  AddLegacyString doc = Done (doc', err) d ->
  exists arr p,
    legacyTokens doc = Done (arr, p) d /\ err = None /\
    doc' = if (List.length arr =? 0)%nat then setRemote doc p
           else setMessage (setRemote doc p) (GoStr.Join arr " ").
Proof.
  unfold AddLegacyString. intros H.
  apply bind_Done in H as ([arr p] & d1 & d2 & Htok & Hret & ->).
  exists arr, p. destruct (List.length arr =? 0)%nat;
    injection Hret as <- <- <-; rewrite app_nil_r; auto.
Qed.

Lemma AddLegacyString_of_tokens doc arr p d :
  legacyTokens doc = Done (arr, p) d ->
  AddLegacyString doc =
  Done (if (List.length arr =? 0)%nat then setRemote doc p
        else setMessage (setRemote doc p) (GoStr.Join arr " "), None) d.
Proof.
  intros H. unfold AddLegacyString. rewrite H. cbn [bind].
  destruct (List.length arr =? 0)%nat; cbn; rewrite app_nil_r; reflexivity.
Qed.

(** The pointer that the call stores in [doc.Remote]: there is one exactly
    when the record is a NETWORK record whose last [remote] attribute has a
    host portion that is not empty. *)
Lemma legacyTokens_remote doc arr p d :
  legacyTokens doc = Done (arr, p) d ->
  (p <> None <->
   Component doc = "NETWORK" /\
   exists s, lastRemote (Attr doc) = Some (VString s) /\ hostPortion s <> EmptyString).
Proof.
  unfold legacyTokens.
  destruct (String.eqb (Component doc) "CONTROL"
            && negb (isNil (mapIndex (Map (Attr doc)) "host"))) eqn:Hcontrol.
  { apply andb_true_iff in Hcontrol as [Hc _]. apply String.eqb_eq in Hc.
    intros [= <- <- <-]. split; [congruence|]. intros [Hn _]. congruence. }
  destruct (String.eqb (Component doc) "ACCESS") eqn:Haccess.
  { apply String.eqb_eq in Haccess. intros H.
    apply bind_Done in H as (arr1 & d1 & d2 & _ & Hret & _).
    injection Hret as <- <- <-. split; [congruence|]. intros [Hn _]. congruence. }
  destruct (String.eqb (Component doc) "NETWORK") eqn:Hnetwork.
  - apply String.eqb_eq in Hnetwork. intros H.
    apply bind_Done in H as ([remote arr1] & d1 & d2 & Hloop & Hret & _).
    apply network_loop_host in Hloop as (_ & Hhost).
    destruct (String.eqb (Remote.Value remote) EmptyString) eqn:Hv;
      cbn [negb] in Hret; injection Hret as <- <- <-.
    + apply String.eqb_eq in Hv. split; [congruence|].
      intros (_ & s & Hlast & Hne). rewrite Hlast in Hhost.
      destruct Hhost as (s' & [= <-] & Hval). congruence.
    + apply String.eqb_neq in Hv. split; [|congruence]. intros _.
      split; [exact Hnetwork|].
      destruct (lastRemote (Attr doc)) as [v|].
      * destruct Hhost as (s & -> & Hval). exists s. split; [reflexivity|congruence].
      * exfalso. apply Hv. exact Hhost.
  - apply String.eqb_neq in Hnetwork. intros H.
    apply bind_Done in H as (arr1 & d1 & d2 & _ & Hret & _).
    injection Hret as <- <- <-. split; [congruence|]. intros [Hn _]. congruence.
Qed.

(** C2, as the code has it.  When a call on a record without a [Remote]
    returns, a [Remote] is attached if and only if the component of the
    record is NETWORK and the last attribute with the key [remote] is a
    string whose host portion, the text before its first colon, is not
    empty.  A record of another component gets no [Remote]. *)
Theorem remote_attached_iff doc doc' err d :
  Remote doc = None ->
  AddLegacyString doc = Done (doc', err) d ->
  (Remote doc' <> None <->
   Component doc = "NETWORK" /\
   exists s, lastRemote (Attr doc) = Some (VString s) /\ hostPortion s <> EmptyString).
Proof.
  intros Hnone H.
  apply AddLegacyString_Done in H as (arr & p & Htok & _ & ->).
  rewrite <- (legacyTokens_remote doc arr p d Htok).
  destruct (List.length arr =? 0)%nat; destruct p; cbn; rewrite ?Hnone; split; congruence.
Qed.

(** ** AddLegacyString: frame and determinism *)

Lemma legacyTokens_same_input d1 d2 :
  Component d1 = Component d2 -> Msg d1 = Msg d2 -> Attr d1 = Attr d2 ->
  legacyTokens d1 = legacyTokens d2.
Proof. unfold legacyTokens. intros -> -> ->. reflexivity. Qed.

(** C8.  A call that returns leaves [Component], [Msg] and [Attr] as they
    were, and what it writes to [Message] and [Remote] is a function of
    these three fields alone: two records that agree on them either both
    make the call panic, or get the same writes, the same diagnostics and
    the nil error. *)
Theorem AddLegacyString_frame d1 d2 :
  Component d1 = Component d2 -> Msg d1 = Msg d2 -> Attr d1 = Attr d2 ->
  (forall doc' err d,
     AddLegacyString d1 = Done (doc', err) d ->
     Component doc' = Component d1 /\ Msg doc' = Msg d1 /\ Attr doc' = Attr d1)
  /\ ((exists reason,
         AddLegacyString d1 = Panic reason /\ AddLegacyString d2 = Panic reason)
      \/ (exists wm wr d,
            AddLegacyString d1 = Done (written wm wr d1, None) d
            /\ AddLegacyString d2 = Done (written wm wr d2, None) d)).
Proof.
  intros Hc Hm Ha. split.
  - intros doc' err d H.
    apply AddLegacyString_Done in H as (arr & p & _ & _ & ->).
    destruct (List.length arr =? 0)%nat; destruct p; cbn; auto.
  - pose proof (legacyTokens_same_input d1 d2 Hc Hm Ha) as Heq.
    destruct (legacyTokens d1) as [[arr p] d|reason] eqn:H1.
    + right.
      exists (if (List.length arr =? 0)%nat then None else Some (GoStr.Join arr " ")), p, d.
      rewrite (AddLegacyString_of_tokens d1 arr p d H1).
      rewrite (AddLegacyString_of_tokens d2 arr p d (eq_sym Heq)).
      destruct d1, d2. destruct (List.length arr =? 0)%nat; destruct p; cbn; auto.
    + left. exists reason. unfold AddLegacyString. rewrite <- Heq, H1. auto.
Qed.

(** ** AddLegacyString: no token, no message *)

Lemma mapIndex_empty (k : string) : mapIndex (Map []) k = VNil.
Proof. unfold mapIndex, Map. cbn [fold_left]. rewrite lookup_empty. reflexivity. Qed.

(** C6.  The message [Slow query] gives no token, whatever the component;
    a call that ends with no token at all returns without writing
    [Message], which keeps the value it had; so does, for every component,
    a [Slow query] record without attributes. *)
Theorem slow_query_no_token :
  messageTokens "Slow query" = []
  /\ (forall doc p d,
        legacyTokens doc = Done ([], p) d ->
        exists doc', AddLegacyString doc = Done (doc', None) d
                     /\ Message doc' = Message doc)
  /\ (forall component message remote,
        AddLegacyString (mkLogv2Info component "Slow query" [] message remote)
        = Done (mkLogv2Info component "Slow query" [] message remote, None) []).
Proof.
  split; [reflexivity|split].
  - intros doc p d H. rewrite (AddLegacyString_of_tokens doc [] p d H).
    eexists. split; [reflexivity|]. destruct p; reflexivity.
  - intros component message remote.
    apply (AddLegacyString_of_tokens _ [] None).
    unfold legacyTokens. cbn [Attr Msg Component]. rewrite mapIndex_empty.
    cbn [isNil negb]. rewrite andb_false_r.
    destruct (String.eqb component "ACCESS"); [reflexivity|].
    destruct (String.eqb component "NETWORK"); reflexivity.
Qed.

(** ** AddLegacyString: the split of a remote address *)

(** C7.  In a NETWORK record whose [remote] attributes are strings with
    exactly one colon, every split gives two pieces, the host and the port,
    so that both index expressions are in bounds, and the call returns: it
    does not panic, its error is nil and it writes nothing to the
    diagnostic sink.  The error of a call that returns is nil for every
    record. *)
Theorem network_remote_never_fails doc :
  Component doc = "NETWORK" ->
  remotesHaveOneColon (Attr doc) ->
  (forall attr s,
     In attr (Attr doc) -> Key attr = "remote" -> Val attr = VString s ->
     exists host port,
       GoStr.Split s ":" = [host; port] /\ s = host ++ ":" ++ port
       /\ at_index (GoStr.Split s ":") 0 = Done host []
       /\ at_index (GoStr.Split s ":") 1 = Done port [])
  /\ (exists doc', AddLegacyString doc = Done (doc', None) [])
  /\ (forall doc0 doc' err d, AddLegacyString doc0 = Done (doc', err) d -> err = None).
Proof.
  intros Hc Hwf. split; [|split].
  - intros attr s Hin Hk Hv.
    unfold remotesHaveOneColon in Hwf. rewrite List.Forall_forall in Hwf.
    destruct (Hwf attr Hin Hk) as (s' & Hv' & Hone).
    rewrite Hv in Hv'. injection Hv' as <-.
    destruct (Split_one_colon s Hone) as (host & port & Hs).
    exists host, port. rewrite Hs. repeat split.
    rewrite <- (Join_Split s) at 1. rewrite Hs. reflexivity.
  - destruct (network_loop_total (Msg doc) (Attr doc) Hwf
                (Remote.zero, messageTokens (Msg doc))) as [[remote arr] Hloop].
    assert (exists p, legacyTokens doc = Done (arr, p) []) as [p Htok].
    { unfold legacyTokens. rewrite Hc. cbn [String.eqb Ascii.eqb Bool.eqb andb].
      rewrite Hloop. cbn [bind].
      destruct (negb (String.eqb (Remote.Value remote) EmptyString)); eexists; reflexivity. }
    rewrite (AddLegacyString_of_tokens doc arr p [] Htok). eexists. reflexivity.
  - intros doc0 doc' err d H.
    apply AddLegacyString_Done in H as (arr & p & _ & He & _). exact He.
Qed.

Lemma Split_app_colon (a t : string) :
  countColons a = 0%nat -> GoStr.Split (a ++ ":" ++ t) ":" = a :: GoStr.Split t ":".
Proof.
  induction a as [|c rest IH]; intros H; [reflexivity|].
  cbn [countColons] in H.
  change (GoStr.Split (String c rest ++ ":" ++ t) ":")
    with (if Ascii.eqb c ":" then EmptyString :: GoStr.Split (rest ++ ":" ++ t) ":"
          else match GoStr.Split (rest ++ ":" ++ t) ":" with
               | [] => [String c EmptyString]
               | tok :: toks => String c tok :: toks
               end).
  destruct (Ascii.eqb c ":"); [discriminate|].
  rewrite (IH H). reflexivity.
Qed.

Lemma Split_nonempty (s : string) : exists tok toks, GoStr.Split s ":" = tok :: toks.
Proof.
  pose proof (Split_length s) as Hl.
  destruct (GoStr.Split s ":") as [|tok toks]; [discriminate|eauto].
Qed.

(** C9.  On a [remote] attribute with two colons or more, the round of the
    loop stores the text before the first colon as the host and the text
    between the first and the second colon as the port; what follows the
    second colon reaches no field of [remote], and the round neither panics
    nor writes a diagnostic.  A record with this one attribute and a host
    that is not empty gets a [Remote] with this host and this port. *)
Theorem remote_extra_colons msg r arr (a b c : string) (message : string) :
  countColons a = 0%nat ->
  countColons b = 0%nat ->
  (exists r' arr',
     networkAttr msg (r, arr) (mkE "remote" (VString (a ++ ":" ++ b ++ ":" ++ c)))
     = Done (r', arr') []
     /\ Remote.Value r' = a /\ Remote.Port r' = b /\ Remote.Conns r' = Remote.Conns r)
  /\ (a <> EmptyString ->
      exists doc' r',
        AddLegacyString
          (mkLogv2Info "NETWORK" msg [mkE "remote" (VString (a ++ ":" ++ b ++ ":" ++ c))]
             message None)
        = Done (doc', None) []
        /\ Remote doc' = Some r' /\ Remote.Value r' = a /\ Remote.Port r' = b).
Proof.
  intros Ha Hb.
  assert (exists tok toks,
            GoStr.Split (a ++ ":" ++ b ++ ":" ++ c) ":" = a :: b :: tok :: toks) as Hs.
  { destruct (Split_nonempty c) as (tok & toks & Hc). exists tok, toks.
    rewrite (Split_app_colon a _ Ha), (Split_app_colon b _ Hb), Hc. reflexivity. }
  destruct Hs as (tok & toks & Hs).
  assert (forall r0 arr0, exists r' arr',
     networkAttr msg (r0, arr0) (mkE "remote" (VString (a ++ ":" ++ b ++ ":" ++ c)))
     = Done (r', arr') []
     /\ Remote.Value r' = a /\ Remote.Port r' = b /\ Remote.Conns r' = Remote.Conns r0)
    as Hstep.
  { intros r0 arr0. unfold networkAttr. cbn [Key Val String.eqb Ascii.eqb Bool.eqb assertString].
    unfold ret at 1. cbn [bind]. rewrite Hs. cbn [at_index nth_error].
    unfold ret at 1 2. cbn [bind].
    destruct (String.eqb msg "Connection ended"); do 2 eexists; (split; [reflexivity|]);
      cbn; auto. }
  split; [apply Hstep|].
  intros Hne. destruct (Hstep Remote.zero (messageTokens msg)) as (r' & arr' & Hr & Hv & Hp & _).
  assert (legacyTokens
            (mkLogv2Info "NETWORK" msg [mkE "remote" (VString (a ++ ":" ++ b ++ ":" ++ c))]
               message None) = Done (arr', Some r') []) as Htok.
  { unfold legacyTokens. cbn [Component Msg Attr String.eqb Ascii.eqb Bool.eqb andb].
    cbn [rangeAttr]. rewrite Hr. cbn [bind ret].
    rewrite Hv. apply String.eqb_neq in Hne. rewrite Hne. reflexivity. }
  rewrite (AddLegacyString_of_tokens _ _ _ _ Htok).
  destruct (List.length arr' =? 0)%nat; do 2 eexists; (split; [reflexivity|]); cbn; auto.
Qed.

(** ** AddLegacyString: the scenarios of the specification *)

(** C3, as the code has it.  The NETWORK record with the message
    [Connection accepted] and the attributes [remote] and [connectionId]
    gets the token of the message first: the line is
    [connection accepted from 127.0.0.1:54321 #7], and the [Remote] has the
    host, the port and [Accepted] set. *)
Theorem connection_accepted_scenario (message : string) :
  AddLegacyString
    (mkLogv2Info "NETWORK" "Connection accepted"
       [mkE "remote" (VString "127.0.0.1:54321"); mkE "connectionId" (VInt32 7)]
       message None)
  = Done
      (mkLogv2Info "NETWORK" "Connection accepted"
         [mkE "remote" (VString "127.0.0.1:54321"); mkE "connectionId" (VInt32 7)]
         "connection accepted from 127.0.0.1:54321 #7"
         (Some (Remote.mk "127.0.0.1" "54321" 1 0 0)),
       None) [].
Proof. reflexivity. Qed.

(** C4.  In a NETWORK record with the message [Connection ended], a
    [remote] attribute gives its value as the token, without [from], and
    sets [Ended]; a [connectionId] attribute gives no token; a [Remote]
    that gets attached has [Ended] set and [Accepted] clear.  The record
    with [remote] and [connectionCount:3] gets the line
    [end connection 127.0.0.1:54321 (3 connections now open)] and a
    [Remote] with [Ended] 1 and [Conns] 3. *)
Theorem connection_ended r arr (s host port : string) (more : list string) (v : Value)
    (message : string) :
  GoStr.Split s ":" = host :: port :: more ->
  networkAttr "Connection ended" (r, arr) (mkE "remote" (VString s))
  = Done (Remote.mk host port (Remote.Accepted r) 1 (Remote.Conns r), append arr s) []
  /\ networkAttr "Connection ended" (r, arr) (mkE "connectionId" v) = Done (r, arr) []
  /\ (forall doc doc' err d r',
        Component doc = "NETWORK" -> Msg doc = "Connection ended" ->
        AddLegacyString doc = Done (doc', err) d ->
        Remote doc = None -> Remote doc' = Some r' ->
        Remote.Ended r' = 1 /\ Remote.Accepted r' = 0)
  /\ AddLegacyString
       (mkLogv2Info "NETWORK" "Connection ended"
          [mkE "remote" (VString "127.0.0.1:54321"); mkE "connectionCount" (VInt32 3)]
          message None)
     = Done
         (mkLogv2Info "NETWORK" "Connection ended"
            [mkE "remote" (VString "127.0.0.1:54321"); mkE "connectionCount" (VInt32 3)]
            "end connection 127.0.0.1:54321 (3 connections now open)"
            (Some (Remote.mk "127.0.0.1" "54321" 0 1 3)),
          None) [].
Proof.
  intros Hs. split; [|split; [|split]].
  - unfold networkAttr. cbn [Key Val String.eqb Ascii.eqb Bool.eqb assertString].
    unfold ret at 1. cbn [bind]. rewrite Hs. reflexivity.
  - destruct r. reflexivity.
  - intros doc doc' err d r' Hc Hm H Hnone Hsome.
    apply AddLegacyString_Done in H as (tokens & p & Htok & _ & ->).
    assert (p = Some r') as ->.
    { destruct (List.length tokens =? 0)%nat; destruct p; cbn in Hsome; congruence. }
    unfold legacyTokens in Htok. rewrite Hc, Hm in Htok.
    cbn [String.eqb Ascii.eqb Bool.eqb andb] in Htok.
    apply bind_Done in Htok as ([remote arr1] & d1 & d2 & Hloop & Hret & _).
    apply network_loop_ended in Hloop as [Hacc Hend]; [|reflexivity|intros Hv; elim Hv; reflexivity].
    destruct (String.eqb (Remote.Value remote) EmptyString) eqn:Hv;
      cbn [negb] in Hret; [discriminate Hret|]. injection Hret as <- <- <-.
    apply String.eqb_neq in Hv. split; [apply Hend; exact Hv|exact Hacc].
  - reflexivity.
Qed.

(** C5.  The ACCESS record with the message [Authentication succeeded] and
    the attributes [authenticationDatabase:admin] and
    [principalName:alice] gets the line
    [Successfully authenticated on admin as principal alice]. *)
Theorem authentication_succeeded_scenario (message : string) (remote : option Remote.t) :
  AddLegacyString
    (mkLogv2Info "ACCESS" "Authentication succeeded"
       [mkE "authenticationDatabase" (VString "admin"); mkE "principalName" (VString "alice")]
       message remote)
  = Done
      (mkLogv2Info "ACCESS" "Authentication succeeded"
         [mkE "authenticationDatabase" (VString "admin"); mkE "principalName" (VString "alice")]
         "Successfully authenticated on admin as principal alice" remote,
       None) [].
Proof. reflexivity. Qed.

End Legacy.

(** ** The theorems at concrete records *)

Lemma document_layout_witness :
  Forall2 entryText [mkE "a" (VInt32 1); mkE "b.c" (VBool true)] ["a:1"; "b.c: true"]
  /\ toLegacyString (VInt32 1) = Done (VInt32 1) []
  /\ 0 < GoStr.Index "b.c" "."
  /\ GoStr.Index "bc" "." < 0
  /\ (exists diag,
        toLegacyString (VD [mkE "a" (VInt32 1); mkE "b.c" (VBool true)])
        = Done (VString (" { " ++ GoStr.Join ["a:1"; "b.c: true"] ", " ++ " }")) diag)
  /\ toLegacyString (VE (mkE "b.c" (VInt32 1)))
     = Done (VString (" { " ++ GoStr.dq ++ "b.c" ++ GoStr.dq ++ ":1 } ")) []
  /\ toLegacyString (VE (mkE "bc" (VInt32 1))) = Done (VString " { bc:1 } ") [].
Proof.
  assert (Forall2 entryText [mkE "a" (VInt32 1); mkE "b.c" (VBool true)] ["a:1"; "b.c: true"])
    as Hd.
  { repeat constructor; eexists; eexists; split; reflexivity. }
  assert (0 < GoStr.Index "b.c" ".") as Hq by reflexivity.
  assert (GoStr.Index "bc" "." < 0) as Hp by reflexivity.
  split; [exact Hd|]. split; [reflexivity|]. split; [exact Hq|]. split; [exact Hp|].
  exact (document_layout _ _ "b.c" "bc" (VInt32 1) (VInt32 1) [] Hd eq_refl Hq Hp).
Defined.

(** C2 fails as it is stated.  An ACCESS record with a [remote] attribute
    whose host portion is not empty gets no [Remote]; neither does a
    NETWORK record in which a later [remote] attribute has an empty host
    portion. *)
Lemma remote_attached_counterexample :
  hasRemoteHost [mkE "remote" (VString "10.0.0.5:40000")]
  /\ AddLegacyString failingExtJSON
       (mkLogv2Info "ACCESS" "Authentication succeeded"
          [mkE "remote" (VString "10.0.0.5:40000")] EmptyString None)
     = Done (mkLogv2Info "ACCESS" "Authentication succeeded"
               [mkE "remote" (VString "10.0.0.5:40000")]
               "Successfully authenticated from client 10.0.0.5:40000" None, None) []
  /\ hasRemoteHost [mkE "remote" (VString "10.0.0.5:40000"); mkE "remote" (VString ":27017")]
  /\ AddLegacyString failingExtJSON
       (mkLogv2Info "NETWORK" "Connection accepted"
          [mkE "remote" (VString "10.0.0.5:40000"); mkE "remote" (VString ":27017")]
          EmptyString None)
     = Done (mkLogv2Info "NETWORK" "Connection accepted"
               [mkE "remote" (VString "10.0.0.5:40000"); mkE "remote" (VString ":27017")]
               "connection accepted from 10.0.0.5:40000 from :27017" None, None) [].
Proof.
  assert (forall rest, hasRemoteHost (mkE "remote" (VString "10.0.0.5:40000") :: rest)) as H.
  { intros rest. exists (mkE "remote" (VString "10.0.0.5:40000")), "10.0.0.5:40000".
    split; [left; reflexivity|]. split; [reflexivity|]. split; [reflexivity|].
    cbn. discriminate. }
  split; [apply H|]. split; [reflexivity|]. split; [apply H|reflexivity].
Qed.

Lemma remote_attached_iff_witness :
  Remote sampleAccepted = None
  /\ AddLegacyString failingExtJSON sampleAccepted
     = Done (mkLogv2Info "NETWORK" "Connection accepted" (Attr sampleAccepted)
               "connection accepted from 127.0.0.1:54321 #7"
               (Some (Remote.mk "127.0.0.1" "54321" 1 0 0)), None) []
  /\ (Some (Remote.mk "127.0.0.1" "54321" 1 0 0) <> None <->
      Component sampleAccepted = "NETWORK" /\
      exists s, lastRemote (Attr sampleAccepted) = Some (VString s)
                /\ hostPortion s <> EmptyString).
Proof.
  split; [reflexivity|]. split; [reflexivity|].
  exact (remote_attached_iff failingExtJSON sampleAccepted _ None [] eq_refl eq_refl).
Defined.

(** C3 fails as it is stated: the line starts with the token of the
    message, it is not [from 127.0.0.1:54321 #7]. *)
Lemma connection_accepted_counterexample :
  AddLegacyString failingExtJSON sampleAccepted
  = Done (mkLogv2Info "NETWORK" "Connection accepted" (Attr sampleAccepted)
            "connection accepted from 127.0.0.1:54321 #7"
            (Some (Remote.mk "127.0.0.1" "54321" 1 0 0)), None) []
  /\ "connection accepted from 127.0.0.1:54321 #7" <> "from 127.0.0.1:54321 #7".
Proof. split; [reflexivity|discriminate]. Qed.

Lemma connection_ended_witness :
  GoStr.Split "127.0.0.1:54321" ":" = ["127.0.0.1"; "54321"]
  /\ networkAttr failingExtJSON "Connection ended" (Remote.zero, ["end connection"])
       (mkE "remote" (VString "127.0.0.1:54321"))
     = Done (Remote.mk "127.0.0.1" "54321" 0 1 0, ["end connection"; "127.0.0.1:54321"]) []
  /\ networkAttr failingExtJSON "Connection ended" (Remote.zero, ["end connection"])
       (mkE "connectionId" (VInt32 7))
     = Done (Remote.zero, ["end connection"]) [].
Proof.
  split; [reflexivity|].
  pose proof (connection_ended failingExtJSON Remote.zero ["end connection"]
                "127.0.0.1:54321" "127.0.0.1" "54321" [] (VInt32 7) EmptyString eq_refl)
    as (H1 & H2 & _).
  split; [exact H1|exact H2].
Defined.

Lemma slow_query_no_token_witness :
  legacyTokens failingExtJSON (mkLogv2Info "NETWORK" "Slow query" [] "kept" None)
  = Done ([], None) []
  /\ exists doc',
       AddLegacyString failingExtJSON (mkLogv2Info "NETWORK" "Slow query" [] "kept" None)
       = Done (doc', None) []
       /\ Message doc' = "kept".
Proof.
  split; [reflexivity|].
  exact (proj1 (proj2 (slow_query_no_token failingExtJSON))
           (mkLogv2Info "NETWORK" "Slow query" [] "kept" None) None [] eq_refl).
Defined.

Lemma network_remote_never_fails_witness :
  Component sampleAccepted = "NETWORK"
  /\ remotesHaveOneColon (Attr sampleAccepted)
  /\ exists doc', AddLegacyString failingExtJSON sampleAccepted = Done (doc', None) [].
Proof.
  assert (remotesHaveOneColon (Attr sampleAccepted)) as Hwf.
  { repeat constructor.
    - intros _. exists "127.0.0.1:54321". split; reflexivity.
    - intros H. discriminate H. }
  split; [reflexivity|]. split; [exact Hwf|].
  exact (proj1 (proj2 (network_remote_never_fails failingExtJSON sampleAccepted eq_refl Hwf))).
Defined.

Lemma AddLegacyString_frame_witness :
  Component sampleAccepted = Component sampleAcceptedAgain
  /\ Msg sampleAccepted = Msg sampleAcceptedAgain
  /\ Attr sampleAccepted = Attr sampleAcceptedAgain
  /\ ((exists reason,
         AddLegacyString failingExtJSON sampleAccepted = Panic reason
         /\ AddLegacyString failingExtJSON sampleAcceptedAgain = Panic reason)
      \/ (exists wm wr d,
            AddLegacyString failingExtJSON sampleAccepted
            = Done (written wm wr sampleAccepted, None) d
            /\ AddLegacyString failingExtJSON sampleAcceptedAgain
               = Done (written wm wr sampleAcceptedAgain, None) d)).
Proof.
  repeat (split; [reflexivity|]).
  exact (proj2 (AddLegacyString_frame failingExtJSON sampleAccepted sampleAcceptedAgain
                  eq_refl eq_refl eq_refl)).
Defined.

Lemma remote_extra_colons_witness :
  countColons "fe80" = 0%nat
  /\ countColons EmptyString = 0%nat
  /\ exists r' arr',
       networkAttr failingExtJSON "Connection accepted" (Remote.zero, ["connection accepted"])
         (mkE "remote" (VString ("fe80" ++ ":" ++ EmptyString ++ ":" ++ "1:27017")))
       = Done (r', arr') []
       /\ Remote.Value r' = "fe80" /\ Remote.Port r' = EmptyString
       /\ Remote.Conns r' = Remote.Conns Remote.zero.
Proof.
  split; [reflexivity|]. split; [reflexivity|].
  exact (proj1 (remote_extra_colons failingExtJSON "Connection accepted" Remote.zero
                  ["connection accepted"] "fe80" EmptyString "1:27017" EmptyString
                  eq_refl eq_refl)).
Defined.

Lemma uuid_short_payload_panics_witness :
  (List.length [Byte.x00; Byte.x11; Byte.x22] < 10)%nat
  /\ exists reason, toLegacyString (VBinary 4 [Byte.x00; Byte.x11; Byte.x22]) = Panic reason.
Proof.
  assert (List.length [Byte.x00; Byte.x11; Byte.x22] < 10)%nat as H by (simpl; lia).
  split; [exact H|]. exact (uuid_short_payload_panics _ H).
Defined.

(** ** toLegacyString: when it returns, what it returns, what it logs *)

Section ValueInduction.
Variable P : Value -> Prop.
Hypothesis HNil : P VNil.
Hypothesis HBool : forall b, P (VBool b).
Hypothesis HInt : forall n, P (VInt n).
Hypothesis HInt32 : forall n, P (VInt32 n).
Hypothesis HInt64 : forall n, P (VInt64 n).
Hypothesis HFloat32 : forall t, P (VFloat32 t).
Hypothesis HFloat64 : forall t, P (VFloat64 t).
Hypothesis HString : forall s, P (VString s).
Hypothesis HDateTime : forall n, P (VDateTime n).
Hypothesis HBinary : forall st data, P (VBinary st data).
Hypothesis HObjectID : forall id, P (VObjectID id).
Hypothesis HTimestamp : forall t i, P (VTimestamp t i).
Hypothesis HRegex : forall p o, P (VRegex p o).
Hypothesis HA : forall elems, Forall P elems -> P (VA elems).
Hypothesis HD : forall entries, Forall (fun e => P (Val e)) entries -> P (VD entries).
Hypothesis HE : forall k v, P v -> P (VE (mkE k v)).
Hypothesis HOther : forall ty text, P (VOther ty text).

(** Induction on a value with the hypothesis for every element of an array
    and every entry of a document. *)
Fixpoint Value_nested_ind (v : Value) : P v :=
  match v with
  | VNil => HNil
  | VBool b => HBool b
  | VInt n => HInt n
  | VInt32 n => HInt32 n
  | VInt64 n => HInt64 n
  | VFloat32 t => HFloat32 t
  | VFloat64 t => HFloat64 t
  | VString s => HString s
  | VDateTime n => HDateTime n
  | VBinary st data => HBinary st data
  | VObjectID id => HObjectID id
  | VTimestamp t i => HTimestamp t i
  | VRegex p o => HRegex p o
  | VA elems =>
      HA elems ((fix go (l : list Value) : Forall P l :=
                   match l with
                   | [] => @List.Forall_nil _ P
                   | x :: rest => @List.Forall_cons _ P x rest (Value_nested_ind x) (go rest)
                   end) elems)
  | VD entries =>
      HD entries ((fix go (l : list E) : Forall (fun e => P (Val e)) l :=
                     match l with
                     | [] => @List.Forall_nil _ (fun e => P (Val e))
                     | mkE k x :: rest =>
                         @List.Forall_cons _ (fun e => P (Val e)) (mkE k x) rest
                           (Value_nested_ind x) (go rest)
                     end) entries)
  | VE (mkE k x) => HE k x (Value_nested_ind x)
  | VOther ty text => HOther ty text
  end.
End ValueInduction.

Lemma returns_Done {X} (x : X) d : returns (Done x d).
Proof. exists x, d. reflexivity. Qed.

Lemma returns_Panic {X} reason : ~ returns (@Panic X reason).
Proof. intros (x & d & H). discriminate H. Qed.

Lemma returns_bind {X Y} (m : outcome X) (k : X -> outcome Y) :
  returns (bind m k) <-> exists x d, m = Done x d /\ returns (k x).
Proof.
  split.
  - intros (y & d & H). apply bind_Done in H as (x & d1 & d2 & Hm & Hk & _).
    exists x, d1. split; [exact Hm|]. exists y, d2. exact Hk.
  - intros (x & d & -> & y & d2 & Hk). unfold bind. rewrite Hk. apply returns_Done.
Qed.

Lemma returns_bind_ret {X Y} (m : outcome X) (g : X -> Y) :
  returns (bind m (fun x => ret (g x))) <-> returns m.
Proof.
  rewrite returns_bind. split.
  - intros (x & d & -> & _). apply returns_Done.
  - intros (x & d & ->). exists x, d. split; [reflexivity|apply returns_Done].
Qed.

Lemma returns_forEach {X Y} (f : X -> outcome Y) (l : list X) :
  returns (forEach f l) <-> Forall (fun x => returns (f x)) l.
Proof.
  induction l as [|x rest IH]; cbn [forEach].
  - split; [constructor|intros _; apply returns_Done].
  - rewrite returns_bind. split.
    + intros (y & d & Hx & Hrest). apply returns_bind_ret in Hrest.
      constructor; [rewrite Hx; apply returns_Done|apply IH; exact Hrest].
    + intros H. inversion H as [|x' l' (y & d & Hx) Hrest]; subst.
      exists y, d. split; [exact Hx|]. apply returns_bind_ret, IH. exact Hrest.
Qed.

Lemma toLegacyString_VA (data : A) :
  toLegacyString (VA data) =
  let* arrays := forEach (fun list =>
                   let* arr := renderSlot list in ret (GoStr.Join arr ", ")) data in
  ret (VString ("[" ++ GoStr.Join arrays ", " ++ "]")).
Proof. reflexivity. Qed.

Lemma Forall_iff_pointwise {X} (P Q : X -> Prop) (l : list X) :
  Forall (fun x => P x <-> Q x) l -> (Forall P l <-> Forall Q l).
Proof.
  induction 1 as [|x rest Hx _ IH]; split; intros H; try constructor;
    inversion H; subst; try (apply Hx; assumption); apply IH; assumption.
Qed.

Lemma existsb_false_Forall {X} (f : X -> bool) (l : list X) :
  existsb f l = false <-> Forall (fun x => f x = false) l.
Proof.
  induction l as [|x rest IH]; cbn [existsb].
  - split; [constructor|reflexivity].
  - rewrite orb_false_iff, IH. split.
    + intros [Hx Hr]. constructor; assumption.
    + intros H. inversion H; subst. split; assumption.
Qed.

Lemma returns_entries (g : string -> Value -> string) (entries : D) :
  returns (forEach (fun doc =>
             match doc with
             | mkE k v => let* r := toLegacyString v in ret (g k r)
             end) entries)
  <-> Forall (fun e => returns (toLegacyString (Val e))) entries.
Proof.
  rewrite returns_forEach. apply Forall_iff_pointwise.
  apply List.Forall_forall. intros [k v] _. apply returns_bind_ret.
Qed.

Lemma returns_VD (entries : D) :
  returns (toLegacyString (VD entries))
  <-> Forall (fun e => returns (toLegacyString (Val e))) entries.
Proof.
  rewrite toLegacyString_VD, returns_bind_ret.
  apply (returns_entries (fun k r => k ++ ":" ++ fmtV r)).
Qed.

Lemma returns_renderSlot (elem : Value) :
  returns (renderSlot elem) <-> returns (toLegacyString elem).
Proof.
  destruct elem; try apply returns_bind_ret.
  rewrite returns_VD.
  apply (returns_entries (fun k r => "{ " ++ k ++ ":" ++ fmtV r ++ " }")).
Qed.

Lemma slice_in_bounds (x : string) (lo hi : Z) :
  0 <= lo <= hi -> hi <= GoStr.len x ->
  slice x lo hi = Done (String.substring (Z.to_nat lo) (Z.to_nat (hi - lo)) x) [].
Proof.
  intros [H0 H1] H2. unfold slice.
  replace (0 <=? lo) with true by (symmetry; apply Z.leb_le; exact H0).
  replace (lo <=? hi) with true by (symmetry; apply Z.leb_le; exact H1).
  replace (hi <=? GoStr.len x) with true by (symmetry; apply Z.leb_le; exact H2).
  reflexivity.
Qed.

Lemma returns_uuid (data : list Byte.byte) :
  returns (toLegacyString (VBinary 4 data)) <-> (10 <= List.length data)%nat.
Proof.
  rewrite toLegacyString_uuid. cbv zeta.
  pose proof (len_hexEncode data) as Hlen.
  destruct (Nat.le_gt_cases 10 (List.length data)) as [Hge|Hlt].
  - split; [intros _; exact Hge|intros _].
    rewrite !slice_in_bounds by lia. apply returns_Done.
  - split; [|lia]. intros Hret. exfalso.
    assert (slice (GoStr.hexEncode data) 16 20 = Panic "slice bounds out of range") as H4.
    { apply slice_out_of_bounds. lia. }
    destruct (slice (GoStr.hexEncode data) 0 8) as [g1 d1|r1];
      [|exact (returns_Panic _ Hret)].
    destruct (slice (GoStr.hexEncode data) 8 12) as [g2 d2|r2];
      [|exact (returns_Panic _ Hret)].
    destruct (slice (GoStr.hexEncode data) 12 16) as [g3 d3|r3];
      [|exact (returns_Panic _ Hret)].
    rewrite H4 in Hret. exact (returns_Panic _ Hret).
Qed.

Lemma returns_toLegacyString (v : Value) :
  returns (toLegacyString v) <-> hasShortUUID v = false.
Proof.
  induction v as [| | | | | | | | |st data| | | |elems IH|entries IH|k v IH|]
    using Value_nested_ind;
    try (split; [reflexivity|intros _; apply returns_Done]).
  - cbn [hasShortUUID].
    destruct (st =? 4)%N eqn:H4.
    + apply N.eqb_eq in H4. subst st. rewrite returns_uuid. cbn [andb].
      rewrite Nat.ltb_ge. reflexivity.
    + cbn [andb]. split; [reflexivity|intros _].
      cbn [toLegacyString]. rewrite H4.
      destruct (st =? 0)%N; apply returns_Done.
  - rewrite toLegacyString_VA, returns_bind_ret, returns_forEach.
    cbn [hasShortUUID]. rewrite existsb_false_Forall.
    apply Forall_iff_pointwise. revert IH. apply List.Forall_impl.
    intros elem IH. rewrite returns_bind_ret, returns_renderSlot. exact IH.
  - rewrite returns_VD. cbn [hasShortUUID]. rewrite existsb_false_Forall.
    apply Forall_iff_pointwise. revert IH. apply List.Forall_impl.
    intros [k x] IH. exact IH.
  - cbn [toLegacyString hasShortUUID]. rewrite <- IH, returns_bind. split.
    + intros (x & d & -> & _). apply returns_Done.
    + intros (x & d & ->). exists x, d. split; [reflexivity|].
      destruct (0 <? GoStr.Index k "."); apply returns_Done.
Qed.

(** X1.  The serializer returns exactly on the values without a binary
    value of subtype 4 and fewer than 10 bytes inside, at any depth of
    arrays, documents and entries; on every other value it panics. *)
Theorem toLegacyString_returns_iff (v : Value) :
  (returns (toLegacyString v) <-> hasShortUUID v = false)
  /\ ((exists reason, toLegacyString v = Panic reason) <-> hasShortUUID v = true).
Proof.
  pose proof (returns_toLegacyString v) as H. split; [exact H|].
  destruct (toLegacyString v) as [r d|reason] eqn:Hv.
  - assert (hasShortUUID v = false) as -> by (apply H; apply returns_Done).
    split; [intros [reason Hr]; discriminate Hr|discriminate].
  - split; [intros _|intros _; exists reason; reflexivity].
    destruct (hasShortUUID v); [reflexivity|].
    exfalso. apply (returns_Panic (X:=Value) reason). apply H. reflexivity.
Qed.

(** X2.  What a call that returns gives back is the argument itself for
    nil, a number, a binary value of an unhandled subtype and a value of an
    unlisted type, and a string for every other value. *)
Theorem toLegacyString_result (v r : Value) (d : list string) :
  toLegacyString v = Done r d ->
  if passesThrough v then r = v else exists s, r = VString s.
Proof.
  destruct v as [| | | | | | | | |st data| | | |elems|entries|[k x]|];
    cbn [passesThrough]; intros H;
    try (injection H as <- _; first [reflexivity|eexists; reflexivity]).
  - cbn [toLegacyString] in H. destruct (st =? 0)%N; cbn [negb andb].
    + injection H as <- _. eexists. reflexivity.
    + destruct (st =? 4)%N; cbn [negb].
      * repeat (apply bind_Done in H as (? & ? & ? & _ & H & _)).
        injection H as <- _. eexists. reflexivity.
      * injection H as <- _. reflexivity.
  - rewrite toLegacyString_VA in H. apply bind_Done in H as (? & ? & ? & _ & H & _).
    injection H as <- _. eexists. reflexivity.
  - rewrite toLegacyString_VD in H. apply bind_Done in H as (? & ? & ? & _ & H & _).
    injection H as <- _. eexists. reflexivity.
  - cbn [toLegacyString] in H. apply bind_Done in H as (? & ? & ? & _ & H & _).
    destruct (0 <? GoStr.Index k "."); injection H as <- _; eexists; reflexivity.
Qed.

Lemma forEach_Done_diag {X Y} (f : X -> outcome Y) (Q : X -> Prop) (l : list X) :
  forall ys d,
    forEach f l = Done ys d ->
    (forall x, In x l -> forall y dx, f x = Done y dx -> (dx = [] <-> Q x)) ->
    (d = [] <-> Forall Q l).
Proof.
  induction l as [|x rest IH]; intros ys d H HQ.
  - injection H as <- <-. split; [constructor|reflexivity].
  - cbn [forEach] in H.
    apply bind_Done in H as (y & d1 & d2 & Hx & H & ->).
    apply bind_Done in H as (ys' & d3 & d4 & Hrest & Hret & ->).
    injection Hret as <- <-. rewrite app_nil_r.
    pose proof (HQ x (or_introl eq_refl) y d1 Hx) as Hhead.
    pose proof (IH ys' d3 Hrest (fun x' Hin => HQ x' (or_intror Hin))) as Htail.
    split.
    + intros Happ. apply app_eq_nil in Happ as [H1 H3].
      constructor; [apply Hhead; exact H1|apply Htail; exact H3].
    + intros HF. inversion HF as [|x' l' Hq Hr]; subst.
      apply Hhead in Hq. apply Htail in Hr. subst. reflexivity.
Qed.

(** The diagnostics of the loop over the entries of a document do not
    depend on the text that is built around each rendering. *)
Lemma forEach_entries_same_diag (g g' : string -> Value -> string) (entries : D) :
  forall arr d,
    forEach (fun doc =>
      match doc with mkE k v => let* r := toLegacyString v in ret (g k r) end) entries
    = Done arr d ->
    exists arr',
      forEach (fun doc =>
        match doc with mkE k v => let* r := toLegacyString v in ret (g' k r) end) entries
      = Done arr' d.
Proof.
  induction entries as [|[k v] rest IH]; intros arr d H.
  - injection H as <- <-. eexists. reflexivity.
  - cbn [forEach] in H |- *.
    apply bind_Done in H as (y & d1 & d2 & Hx & H & ->).
    apply bind_Done in H as (ys' & d3 & d4 & Hrest & Hret & ->).
    injection Hret as <- <-.
    apply bind_Done in Hx as (r & d5 & d6 & Hv & Hret & ->).
    injection Hret as <- <-.
    destruct (IH ys' d3 Hrest) as [arr' Hrest'].
    rewrite Hv. cbn [bind ret]. rewrite Hrest'. cbn [bind ret].
    eexists. reflexivity.
Qed.

Lemma renderSlot_diag (elem : Value) (arr : list string) (d : list string) :
  renderSlot elem = Done arr d -> exists r, toLegacyString elem = Done r d.
Proof.
  intros H.
  assert (forall m : outcome Value,
            bind m (fun r => ret [fmtV r]) = Done arr d -> exists r, m = Done r d) as Hscalar.
  { intros m Hm. apply bind_Done in Hm as (r & d1 & d2 & -> & Hret & ->).
    injection Hret as _ <-. rewrite app_nil_r. eexists. reflexivity. }
  destruct elem; try (apply Hscalar; exact H).
  cbn [renderSlot] in H.
  destruct (forEach_entries_same_diag _ (fun k r => k ++ ":" ++ fmtV r) _ _ _ H) as [arr' H'].
  rewrite toLegacyString_VD, H'. cbn [bind ret]. rewrite app_nil_r. eexists. reflexivity.
Qed.

Lemma quiet_toLegacyString (v : Value) :
  forall r d, toLegacyString v = Done r d -> (d = [] <-> hasUnhandled v = false).
Proof.
  induction v as [| | | | | | | | |st data| | | |elems IH|entries IH|k v IH|]
    using Value_nested_ind; intros r d H;
    try (injection H as _ <-; split; reflexivity).
  - cbn [toLegacyString hasUnhandled] in *. destruct (st =? 0)%N; cbn [negb andb].
    + injection H as _ <-. split; reflexivity.
    + destruct (st =? 4)%N eqn:H4; cbn [negb].
      * apply N.eqb_eq in H4. subst st.
        assert (returns (toLegacyString (VBinary 4 data))) as Hret.
        { rewrite toLegacyString_uuid. cbv zeta. rewrite H. apply returns_Done. }
        apply returns_uuid in Hret. pose proof (len_hexEncode data) as Hlen.
        rewrite !slice_in_bounds in H by lia. injection H as _ <-. split; reflexivity.
      * injection H as _ <-. split; discriminate.
  - rewrite toLegacyString_VA in H.
    apply bind_Done in H as (arrays & d1 & d2 & Hloop & Hret & ->).
    injection Hret as _ <-. rewrite app_nil_r.
    cbn [hasUnhandled]. rewrite existsb_false_Forall.
    apply (forEach_Done_diag _ _ _ _ _ Hloop).
    intros elem Hin s dx Hs.
    apply bind_Done in Hs as (arr & d3 & d4 & Hslot & Hret & ->).
    injection Hret as _ <-. rewrite app_nil_r.
    apply renderSlot_diag in Hslot as [r' Hr'].
    rewrite List.Forall_forall in IH. exact (IH elem Hin r' d3 Hr').
  - rewrite toLegacyString_VD in H.
    apply bind_Done in H as (arr & d1 & d2 & Hloop & Hret & ->).
    injection Hret as _ <-. rewrite app_nil_r.
    cbn [hasUnhandled]. rewrite existsb_false_Forall.
    apply (forEach_Done_diag _ _ _ _ _ Hloop).
    intros [k x] Hin s dx Hs.
    apply bind_Done in Hs as (r' & d3 & d4 & Hr' & Hret & ->).
    injection Hret as _ <-. rewrite app_nil_r.
    rewrite List.Forall_forall in IH. exact (IH (mkE k x) Hin r' d3 Hr').
  - cbn [toLegacyString hasUnhandled] in *.
    apply bind_Done in H as (r' & d1 & d2 & Hr' & Hret & ->).
    assert (d2 = []) as -> by (destruct (0 <? GoStr.Index k "."); injection Hret as _ <-; reflexivity).
    rewrite app_nil_r. exact (IH r' d1 Hr').
  - injection H as _ <-. split; discriminate.
Qed.

(** X3.  A call that returns has written no diagnostic exactly when the
    value holds, at any depth, no binary value of a subtype other than 0
    and 4 and no value of an unlisted type. *)
Theorem toLegacyString_quiet_iff (v r : Value) (d : list string) :
  toLegacyString v = Done r d -> (d = [] <-> hasUnhandled v = false).
Proof. apply quiet_toLegacyString. Qed.

Lemma forEach_slots (elems : A) (slots : list string) :
  Forall2 slotText elems slots ->
  exists diag,
    forEach (fun list => let* arr := renderSlot list in ret (GoStr.Join arr ", ")) elems
    = Done slots diag.
Proof.
  induction 1 as [|elem s elems slots Hslot _ (diag & IH)]; cbn [forEach].
  - eexists. reflexivity.
  - assert (exists arr dg, renderSlot elem = Done arr dg /\ s = GoStr.Join arr ", ")
      as (arr & dg & Harr & ->).
    { destruct elem; cbn [slotText renderSlot] in *;
        try (destruct Hslot as (r & dg & -> & ->); do 2 eexists; split; reflexivity).
      destruct Hslot as (arr & Hentries & ->).
      assert (exists dg, forEach (fun doc =>
                match doc with
                | mkE k v => let* r := toLegacyString v in
                             ret ("{ " ++ k ++ ":" ++ fmtV r ++ " }")
                end) entries = Done arr dg) as [dg Hdg].
      { clear -Hentries.
        induction Hentries as [|[k v] t entries arr (r & dg & Hr & ->) _ (dg' & IH)];
          cbn [forEach].
        - eexists. reflexivity.
        - cbn [Val Key] in *. rewrite Hr. cbn [bind ret]. rewrite IH. cbn [bind ret].
          eexists. reflexivity. }
      exists arr, dg. split; [exact Hdg|reflexivity]. }
    rewrite Harr. cbn [bind ret]. rewrite IH. cbn [bind ret]. eexists. reflexivity.
Qed.

(** X4.  An array whose elements render is rendered as its slots between
    brackets, joined by a comma and a space.  The slot of an element that
    is a document is not the rendering of the document: it is the entries
    of the document, each between braces of its own, joined by a comma and
    a space; the slot of any other element is its rendering. *)
Theorem array_layout (elems : A) (slots : list string) :
  Forall2 slotText elems slots ->
  exists diag,
    toLegacyString (VA elems) = Done (VString ("[" ++ GoStr.Join slots ", " ++ "]")) diag.
Proof.
  intros H. destruct (forEach_slots elems slots H) as [diag Hloop].
  rewrite toLegacyString_VA, Hloop. cbn [bind ret]. eexists. reflexivity.
Qed.

(** ** toLegacyString: the groups of a binary value of subtype 4 *)

Lemma substring_empty (n m : nat) : String.substring n m EmptyString = EmptyString.
Proof. destruct n, m; reflexivity. Qed.

Lemma substring_split (x : string) :
  forall n m k : nat,
    String.substring n m x ++ String.substring (n + m) k x = String.substring n (m + k) x.
Proof.
  induction x as [|c x IH]; intros n m k.
  - rewrite !substring_empty. reflexivity.
  - destruct n as [|n].
    + destruct m as [|m]; [reflexivity|].
      cbn [String.substring Nat.add append]. rewrite <- (IH 0%nat m k). reflexivity.
    + cbn [String.substring Nat.add]. apply IH.
Qed.

Lemma substring_whole (x : string) : String.substring 0 (String.length x) x = x.
Proof.
  induction x as [|c x IH]; [reflexivity|].
  cbn [String.length String.substring]. rewrite IH. reflexivity.
Qed.

Lemma substring_length (x : string) :
  forall n m : nat,
    (n + m <= String.length x)%nat -> String.length (String.substring n m x) = m.
Proof.
  induction x as [|c x IH]; intros n m H; cbn [String.length] in H.
  - assert (n = 0%nat) as -> by lia. assert (m = 0%nat) as -> by lia. reflexivity.
  - destruct n as [|n].
    + destruct m as [|m]; [reflexivity|].
      cbn [String.substring String.length]. rewrite IH by lia. reflexivity.
    + cbn [String.substring]. apply IH. lia.
Qed.

(** X5.  A binary value of subtype 4 with 10 bytes or more is rendered
    without a diagnostic as five groups of hexadecimal digits between
    hyphens.  The groups are the digits of the payload in their order,
    none lost: the first has 8 digits, the next three have 4 each, the
    last has the rest, which is 12 digits for a payload of 16 bytes. *)
Theorem uuid_groups (data : list Byte.byte) :
  (10 <= List.length data)%nat ->
  exists g1 g2 g3 g4 g5 : string,
    toLegacyString (VBinary 4 data)
    = Done (VString ("{ $uuid: " ++ GoStr.dq ++ g1 ++ "-" ++ g2 ++ "-" ++ g3 ++ "-" ++ g4
                       ++ "-" ++ g5 ++ GoStr.dq ++ "}")) []
    /\ g1 ++ g2 ++ g3 ++ g4 ++ g5 = GoStr.hexEncode data
    /\ String.length g1 = 8%nat /\ String.length g2 = 4%nat
    /\ String.length g3 = 4%nat /\ String.length g4 = 4%nat
    /\ String.length g5 = (2 * List.length data - 20)%nat.
Proof.
  intros Hge. pose proof (len_hexEncode data) as Hlen. unfold GoStr.len in Hlen.
  assert (String.length (GoStr.hexEncode data) = (2 * List.length data)%nat) as Hn by lia.
  set (x := GoStr.hexEncode data) in *.
  exists (String.substring 0 8 x), (String.substring 8 4 x), (String.substring 12 4 x),
         (String.substring 16 4 x), (String.substring 20 (String.length x - 20) x).
  split; [|split].
  - rewrite toLegacyString_uuid. cbv zeta. fold x.
    rewrite !slice_in_bounds by (unfold GoStr.len; lia).
    cbn [bind ret]. cbn [app]. unfold GoStr.len.
    replace (Z.to_nat (Z.of_nat (String.length x) - 20)) with (String.length x - 20)%nat by lia.
    reflexivity.
  - rewrite (substring_split x 16 4), (substring_split x 12 4), (substring_split x 8 4),
      (substring_split x 0 8).
    replace (8 + (4 + (4 + (4 + (String.length x - 20)))))%nat with (String.length x) by lia.
    apply substring_whole.
  - rewrite !substring_length by lia. repeat split; lia.
Qed.

(** ** AddLegacyString: the rules of the components *)

Section Rules.

Variable MarshalExtJSON : Value -> bool -> bool -> string * error.

Lemma bind_ret_l {X Y} (x : X) (k : X -> outcome Y) : bind (ret x) k = k x.
Proof. unfold bind, ret. destruct (k x); reflexivity. Qed.

Lemma returns_AddLegacyString doc :
  returns (AddLegacyString MarshalExtJSON doc) <-> returns (legacyTokens MarshalExtJSON doc).
Proof.
  split.
  - intros ([doc' err] & d & H). apply AddLegacyString_Done in H as (arr & p & H & _).
    rewrite H. apply returns_Done.
  - intros ([arr p] & d & H). rewrite (AddLegacyString_of_tokens _ _ _ _ _ H).
    apply returns_Done.
Qed.

(** A loop whose rounds return or panic by the attribute alone returns
    exactly when every attribute lets its round return. *)
Lemma returns_rangeAttr {S : Type} (body : S -> E -> outcome S) (ok : E -> Prop) (attrs : D) :
  (forall s attr, returns (body s attr) <-> ok attr) ->
  forall s, returns (rangeAttr body attrs s) <-> Forall ok attrs.
Proof.
  intros Hbody. induction attrs as [|attr rest IH]; intros s.
  - split; [constructor|intros _; apply returns_Done].
  - rewrite rangeAttr_cons, returns_bind. split.
    + intros (s' & d & Hstep & Hrest). constructor.
      * apply (Hbody s). rewrite Hstep. apply returns_Done.
      * apply (IH s'). exact Hrest.
    + intros H. inversion H as [|a l Hok Hrest]; subst.
      apply (Hbody s) in Hok as (s' & d & Hstep).
      exists s', d. split; [exact Hstep|]. apply IH. exact Hrest.
Qed.

(** A relation that every round keeps holds between the states before and
    after the loop. *)
Lemma rangeAttr_preserves {S : Type} (body : S -> E -> outcome S) (R : S -> S -> Prop) :
  (forall s, R s s) ->
  (forall s1 s2 s3, R s1 s2 -> R s2 s3 -> R s1 s3) ->
  (forall s attr s' d, body s attr = Done s' d -> R s s') ->
  forall attrs s s' d, rangeAttr body attrs s = Done s' d -> R s s'.
Proof.
  intros Hrefl Htrans Hbody. induction attrs as [|attr rest IH]; intros s s' d H.
  - injection H as <- _. apply Hrefl.
  - rewrite rangeAttr_cons in H. apply bind_Done in H as (s1 & d1 & d2 & Hstep & Hrest & _).
    exact (Htrans _ _ _ (Hbody _ _ _ _ Hstep) (IH _ _ _ Hrest)).
Qed.

Lemma accessAttr_Done arr attr :
  exists toks, accessAttr arr attr = Done (arr ++ toks)%list [].
Proof.
  unfold accessAttr, append.
  destruct (String.eqb (Key attr) "authenticationDatabase"); [eexists; reflexivity|].
  destruct (String.eqb (Key attr) "principalName"); [eexists; reflexivity|].
  destruct (String.eqb (Key attr) "remote"); [eexists; reflexivity|].
  destruct (String.eqb (Key attr) "durationMillis"); [eexists; reflexivity|].
  exists []. rewrite app_nil_r. reflexivity.
Qed.

Lemma access_loop_Done attrs :
  forall arr, exists toks, rangeAttr accessAttr attrs arr = Done (arr ++ toks)%list [].
Proof.
  induction attrs as [|attr rest IH]; intros arr.
  - exists []. rewrite app_nil_r. reflexivity.
  - destruct (accessAttr_Done arr attr) as [t1 H1].
    destruct (IH (arr ++ t1)%list) as [t2 H2].
    exists (t1 ++ t2)%list. rewrite rangeAttr_cons, H1. cbn [bind]. rewrite H2.
    rewrite app_assoc. reflexivity.
Qed.

Lemma access_loop_tokens attrs :
  forall arr, rangeAttr accessAttr attrs arr = Done (arr ++ specAccessTokens attrs)%list [].
Proof.
  induction attrs as [|attr rest IH]; intros arr.
  - cbn [rangeAttr specAccessTokens]. rewrite app_nil_r. reflexivity.
  - rewrite rangeAttr_cons. cbn [specAccessTokens].
    unfold accessAttr, specAccessToken, append.
    destruct (String.eqb (Key attr) "authenticationDatabase");
      [|destruct (String.eqb (Key attr) "principalName");
        [|destruct (String.eqb (Key attr) "remote");
          [|destruct (String.eqb (Key attr) "durationMillis")]]];
      unfold ret; cbn [bind]; rewrite IH; cbn [app]; rewrite <- ?app_assoc; reflexivity.
Qed.

(** X6.  An ACCESS record never makes the call panic, whatever its
    attributes hold: the call returns the nil error, writes no diagnostic
    and leaves [Remote] as it was.  Its tokens are the tokens of the
    message followed, in the order of the attributes, by one token for each
    [authenticationDatabase], [principalName], [remote] and
    [durationMillis] attribute, as the specification words them; every
    other attribute gives none.  The line is written unless there is no
    token at all. *)
Theorem access_never_fails doc :
  Component doc = "ACCESS" ->
  AddLegacyString MarshalExtJSON doc
  = Done (if (List.length (messageTokens (Msg doc) ++ specAccessTokens (Attr doc)) =? 0)%nat
          then doc
          else setMessage doc
                 (GoStr.Join (messageTokens (Msg doc) ++ specAccessTokens (Attr doc))%list " "),
          None) [].
Proof.
  intros Hc.
  rewrite (AddLegacyString_of_tokens MarshalExtJSON doc
             (messageTokens (Msg doc) ++ specAccessTokens (Attr doc))%list None []);
    [reflexivity|].
  unfold legacyTokens. rewrite Hc. cbn [String.eqb Ascii.eqb Bool.eqb andb].
  rewrite access_loop_tokens. reflexivity.
Qed.

(** The map of the attributes holds for a key the value of the last
    attribute with this key. *)
Lemma Map_lookup_from (d : D) :
  forall (m : gmap string Value) (k : string),
    fold_left (fun m e => <[Key e := Val e]> m) d m !! k
    = match lastValue k d with Some v => Some v | None => m !! k end.
Proof.
  induction d as [|e rest IH]; intros m k; [reflexivity|].
  cbn [fold_left lastValue]. rewrite IH.
  destruct (lastValue k rest) as [v|]; [reflexivity|].
  destruct (String.eqb_spec (Key e) k) as [Heq|Hne].
  - rewrite Heq. apply lookup_insert_eq.
  - apply lookup_insert_ne. exact Hne.
Qed.

Lemma mapIndex_Map (d : D) (k : string) :
  mapIndex (Map d) k = default VNil (lastValue k d).
Proof.
  unfold mapIndex, Map. rewrite Map_lookup_from, lookup_empty.
  destruct (lastValue k d); reflexivity.
Qed.

(** X7.  A CONTROL record whose last [host] attribute is not nil never
    makes the call panic.  Its line is the token of the message, if any,
    and one token with pid, port, architecture and host; each of them is
    the value of the last attribute with that key, and [<nil>] when there
    is none.  No other attribute reaches the line. *)
Theorem control_line doc (host : Value) :
  Component doc = "CONTROL" ->
  lastValue "host" (Attr doc) = Some host ->
  host <> VNil ->
  AddLegacyString MarshalExtJSON doc
  = Done (setMessage doc
            (GoStr.Join
               (append (messageTokens (Msg doc))
                  ("pid=" ++ fmtV (default VNil (lastValue "pid" (Attr doc)))
                   ++ " port=" ++ fmtV (default VNil (lastValue "port" (Attr doc)))
                   ++ " " ++ fmtV (default VNil (lastValue "architecture" (Attr doc)))
                   ++ " host=" ++ fmtV host)) " "),
          None) [].
Proof.
  intros Hc Hhost Hnil.
  rewrite (AddLegacyString_of_tokens MarshalExtJSON doc
             (append (messageTokens (Msg doc)) (controlToken (Map (Attr doc)))) None []).
  - unfold append at 1. rewrite length_app. cbn [List.length]. rewrite Nat.add_1_r. cbn [Nat.eqb setRemote].
    unfold controlToken. rewrite !mapIndex_Map, Hhost. reflexivity.
  - unfold legacyTokens. rewrite Hc, mapIndex_Map, Hhost.
    cbn [String.eqb Ascii.eqb Bool.eqb andb default].
    destruct host; try reflexivity. elim Hnil. reflexivity.
Qed.

Lemma returns_networkAttr msg st attr :
  returns (networkAttr MarshalExtJSON msg st attr) <-> remoteSplits attr.
Proof.
  destruct st as [r arr]. unfold networkAttr, remoteSplits.
  destruct (String.eqb (Key attr) "remote") eqn:Hk.
  - apply String.eqb_eq in Hk. split.
    + intros Hret _. destruct (Val attr) eqn:Hv;
        try (exfalso; exact (returns_Panic _ Hret)).
      exists s. split; [reflexivity|].
      cbn [assertString] in Hret. unfold ret at 1 in Hret. cbn [bind] in Hret.
      pose proof (Split_length s) as Hl.
      destruct (GoStr.Split s ":") as [|host [|port more]];
        try (exfalso; exact (returns_Panic _ Hret)).
      cbn [List.length] in Hl. lia.
    + intros H. destruct (H Hk) as (s & -> & Hone).
      cbn [assertString]. unfold ret at 1. cbn [bind].
      pose proof (Split_length s) as Hl.
      destruct (GoStr.Split s ":") as [|host [|port more]]; cbn [List.length] in Hl; try lia.
      cbn. destruct (String.eqb msg "Connection ended"); apply returns_Done.
  - apply String.eqb_neq in Hk. split; [intros _ Heq; contradiction|intros _].
    destruct (String.eqb (Key attr) "client"); [apply returns_Done|].
    destruct (String.eqb (Key attr) "connectionId"
              && negb (String.eqb msg "Connection ended")); [apply returns_Done|].
    destruct (String.eqb (Key attr) "connectionCount"); [apply returns_Done|].
    destruct (String.eqb (Key attr) "doc"); [|apply returns_Done].
    destruct (MarshalExtJSON (Val attr) false false). apply returns_Done.
Qed.

Lemma legacyTokens_network doc :
  Component doc = "NETWORK" ->
  legacyTokens MarshalExtJSON doc =
  let* st := rangeAttr (networkAttr MarshalExtJSON (Msg doc)) (Attr doc)
               (Remote.zero, messageTokens (Msg doc)) in
  let (remote, arr) := st in
  if negb (String.eqb (Remote.Value remote) EmptyString)
  then ret (arr, Some remote)
  else ret (arr, None).
Proof. intros Hc. unfold legacyTokens. rewrite Hc. reflexivity. Qed.

(** X8.  On a NETWORK record the call returns exactly when every [remote]
    attribute holds a string with at least one colon; a [remote] attribute
    that holds no string, or a string without a colon, makes it panic,
    wherever it stands among the attributes. *)
Theorem network_returns_iff doc :
  Component doc = "NETWORK" ->
  (returns (AddLegacyString MarshalExtJSON doc) <-> Forall remoteSplits (Attr doc)).
Proof.
  intros Hc. rewrite returns_AddLegacyString, (legacyTokens_network doc Hc), returns_bind.
  rewrite <- (returns_rangeAttr (networkAttr MarshalExtJSON (Msg doc)) remoteSplits (Attr doc)
                (returns_networkAttr (Msg doc)) (Remote.zero, messageTokens (Msg doc))).
  split.
  - intros (st & d & -> & _). apply returns_Done.
  - intros ([remote arr] & d & ->). exists (remote, arr), d. split; [reflexivity|].
    destruct (negb (String.eqb (Remote.Value remote) EmptyString)); apply returns_Done.
Qed.

Lemma returns_defaultAttr arr attr :
  returns (defaultAttr arr attr) <-> defaultAttrOk attr.
Proof.
  unfold defaultAttr, defaultAttrOk.
  destruct (String.eqb (Key attr) "type" || String.eqb (Key attr) "ns").
  - rewrite returns_bind_ret. split.
    + intros Hret. destruct (Val attr); try (exfalso; exact (returns_Panic _ Hret)).
      eexists. reflexivity.
    + intros [s ->]. apply returns_Done.
  - destruct (String.eqb (Key attr) "durationMillis").
    + split; [intros _; exact I|intros _; apply returns_Done].
    + rewrite returns_bind_ret. apply returns_toLegacyString.
Qed.

Lemma legacyTokens_default doc :
  Component doc <> "ACCESS" -> Component doc <> "NETWORK" ->
  (Component doc = "CONTROL" -> default VNil (lastValue "host" (Attr doc)) = VNil) ->
  legacyTokens MarshalExtJSON doc =
  let* arr := rangeAttr defaultAttr (Attr doc) (messageTokens (Msg doc)) in
  ret (arr, None).
Proof.
  intros Ha Hn Hc. unfold legacyTokens.
  apply String.eqb_neq in Ha. apply String.eqb_neq in Hn. rewrite Ha, Hn.
  destruct (String.eqb_spec (Component doc) "CONTROL") as [Heq|Hne]; [|reflexivity].
  rewrite mapIndex_Map, (Hc Heq). reflexivity.
Qed.

(** X9.  On a record that falls under the default rule, that is a record
    of a component other than ACCESS and NETWORK which is not a CONTROL
    record with a host, the call returns exactly when every [type] and
    [ns] attribute holds a string and every attribute with another key
    than [type], [ns] and [durationMillis] holds a value without a short
    binary value of subtype 4.  Otherwise it panics. *)
Theorem default_returns_iff doc :
  Component doc <> "ACCESS" -> Component doc <> "NETWORK" ->
  (Component doc = "CONTROL" -> default VNil (lastValue "host" (Attr doc)) = VNil) ->
  (returns (AddLegacyString MarshalExtJSON doc) <-> Forall defaultAttrOk (Attr doc)).
Proof.
  intros Ha Hn Hc.
  rewrite returns_AddLegacyString, (legacyTokens_default doc Ha Hn Hc), returns_bind_ret.
  apply (returns_rangeAttr defaultAttr defaultAttrOk (Attr doc) returns_defaultAttr).
Qed.

(** What one round does to the connection count. *)
Lemma networkAttr_Conns msg r arr attr r' arr' d :
  networkAttr MarshalExtJSON msg (r, arr) attr = Done (r', arr') d ->
  Remote.Conns r'
  = if String.eqb (Key attr) "connectionCount" then ToInt (Val attr) else Remote.Conns r.
Proof.
  intros H. pose proof (networkAttr_Done _ _ _ _ _ _ _ _ H) as (_ & Hcases).
  destruct Hcases as [(Hk & s & host & port & more & _ & _ & _ & _ & Hc & _)|(Hk & _)].
  - rewrite Hk. exact Hc.
  - unfold networkAttr in H. apply String.eqb_neq in Hk. rewrite Hk in H.
    destruct (String.eqb (Key attr) "client") eqn:Hclient.
    { apply String.eqb_eq in Hclient. rewrite Hclient. injection H as <- _ _. reflexivity. }
    destruct (String.eqb (Key attr) "connectionId") eqn:Hid.
    { apply String.eqb_eq in Hid. rewrite Hid in *. cbn [String.eqb Ascii.eqb Bool.eqb] in *.
      destruct (negb (String.eqb msg "Connection ended")); cbn [andb] in H.
      - injection H as <- _ _. reflexivity.
      - destruct (MarshalExtJSON (Val attr) false false); injection H as <- _ _; reflexivity. }
    cbn [andb] in H.
    destruct (String.eqb (Key attr) "connectionCount"); [injection H as <- _ _; reflexivity|].
    destruct (String.eqb (Key attr) "doc");
      [destruct (MarshalExtJSON (Val attr) false false)|]; injection H as <- _ _; reflexivity.
Qed.

(** Host and port after the loop come from the last [remote] attribute,
    the connection count from the last [connectionCount] attribute. *)
Lemma network_loop_fields msg attrs :
  forall r arr r' arr' d,
    rangeAttr (networkAttr MarshalExtJSON msg) attrs (r, arr) = Done (r', arr') d ->
    match lastRemote attrs with
    | None => Remote.Value r' = Remote.Value r /\ Remote.Port r' = Remote.Port r
    | Some v => exists s host port more,
        v = VString s /\ GoStr.Split s ":" = host :: port :: more
        /\ Remote.Value r' = host /\ Remote.Port r' = port
    end
    /\ Remote.Conns r'
       = match lastValue "connectionCount" attrs with
         | Some v => ToInt v
         | None => Remote.Conns r
         end.
Proof.
  induction attrs as [|attr rest IH]; intros r arr r' arr' d H.
  - injection H as <- _ _. cbn. auto.
  - rewrite rangeAttr_cons in H.
    apply bind_Done in H as ([r1 arr1] & d1 & d2 & Hstep & Hrest & _).
    pose proof (networkAttr_Conns _ _ _ _ _ _ _ Hstep) as HC.
    apply networkAttr_Done in Hstep as (_ & Hstep).
    apply IH in Hrest as (Hrem & Hconns).
    cbn [lastRemote lastValue]. split.
    + destruct (lastRemote rest) as [v|]; [exact Hrem|].
      destruct Hrem as [Hv Hp].
      destruct Hstep as [(Hk & s & host & port & more & Hval & Hs & Hhost & Hport & _)
                        |(Hk & Hval & Hport & _)].
      * apply String.eqb_eq in Hk. rewrite Hk.
        exists s, host, port, more. repeat split; congruence.
      * apply String.eqb_neq in Hk. rewrite Hk. split; congruence.
    + destruct (lastValue "connectionCount" rest) as [v|]; [exact Hconns|].
      rewrite Hconns, HC. destruct (String.eqb (Key attr) "connectionCount"); reflexivity.
Qed.

Lemma network_loop_flags msg attrs :
  forall st st' d,
    rangeAttr (networkAttr MarshalExtJSON msg) attrs st = Done st' d ->
    flagsFollow msg (fst st) -> flagsFollow msg (fst st').
Proof.
  apply (rangeAttr_preserves (networkAttr MarshalExtJSON msg)
           (fun st st' => flagsFollow msg (fst st) -> flagsFollow msg (fst st'))).
  - auto.
  - auto.
  - intros [r arr] attr [r' arr'] d Hstep. cbn [fst].
    apply networkAttr_Done in Hstep as (_ & Hstep). unfold flagsFollow.
    destruct Hstep as [(_ & s & host & port & more & _ & _ & _ & _ & _ & Hflag)
                      |(_ & Hv & _ & Ha & He)].
    + destruct (String.eqb msg "Connection ended").
      * destruct Hflag as (He & Ha & _). intros [H0 _]. split; [congruence|auto].
      * destruct Hflag as (Ha & He & _). intros [H0 _]. split; [congruence|auto].
    + rewrite Hv, Ha, He. auto.
Qed.

Lemma AddLegacyString_network_remote doc doc' err d r :
  Component doc = "NETWORK" ->
  Remote doc = None ->
  AddLegacyString MarshalExtJSON doc = Done (doc', err) d ->
  Remote doc' = Some r ->
  exists arr arr' d',
    rangeAttr (networkAttr MarshalExtJSON (Msg doc)) (Attr doc) (Remote.zero, arr)
    = Done (r, arr') d'
    /\ Remote.Value r <> EmptyString.
Proof.
  intros Hc Hnone H Hsome.
  apply AddLegacyString_Done in H as (tokens & p & Htok & _ & ->).
  assert (p = Some r) as ->.
  { destruct (List.length tokens =? 0)%nat; destruct p; cbn in Hsome; congruence. }
  rewrite (legacyTokens_network doc Hc) in Htok.
  apply bind_Done in Htok as ([remote arr1] & d1 & d2 & Hloop & Hret & _).
  destruct (String.eqb (Remote.Value remote) EmptyString) eqn:Hv;
    cbn [negb] in Hret; [discriminate Hret|]. injection Hret as <- <- <-.
  apply String.eqb_neq in Hv. eauto 10.
Qed.

(** X10.  A [Remote] that the call attaches to a NETWORK record has
    exactly one of its two flags set: [Ended] when the message of the
    record is [Connection ended], [Accepted] for every other message. *)
Theorem remote_flags doc doc' err d r :
  Component doc = "NETWORK" ->
  Remote doc = None ->
  AddLegacyString MarshalExtJSON doc = Done (doc', err) d ->
  Remote doc' = Some r ->
  if String.eqb (Msg doc) "Connection ended"
  then Remote.Ended r = 1 /\ Remote.Accepted r = 0
  else Remote.Accepted r = 1 /\ Remote.Ended r = 0.
Proof.
  intros Hc Hnone H Hsome.
  destruct (AddLegacyString_network_remote doc doc' err d r Hc Hnone H Hsome)
    as (arr & arr' & d' & Hloop & Hv).
  apply network_loop_flags in Hloop; cbn [fst] in Hloop.
  - unfold flagsFollow in Hloop.
    destruct (String.eqb (Msg doc) "Connection ended");
      destruct Hloop as [H0 H1]; split; auto.
  - unfold flagsFollow.
    destruct (String.eqb (Msg doc) "Connection ended");
      (split; [reflexivity|intros Hz; elim Hz; reflexivity]).
Qed.

(** X11.  The fields of a [Remote] that the call attaches to a NETWORK
    record: host and port are the first two pieces of the last [remote]
    attribute, whatever [remote] attributes stand before it, and [Conns] is
    the number of the last [connectionCount] attribute, 0 when there is
    none. *)
Theorem remote_fields doc doc' err d r :
  Component doc = "NETWORK" ->
  Remote doc = None ->
  AddLegacyString MarshalExtJSON doc = Done (doc', err) d ->
  Remote doc' = Some r ->
  (exists s more,
     lastRemote (Attr doc) = Some (VString s)
     /\ GoStr.Split s ":" = Remote.Value r :: Remote.Port r :: more
     /\ Remote.Value r <> EmptyString)
  /\ Remote.Conns r
     = match lastValue "connectionCount" (Attr doc) with
       | Some v => ToInt v
       | None => 0
       end.
Proof.
  intros Hc Hnone H Hsome.
  destruct (AddLegacyString_network_remote doc doc' err d r Hc Hnone H Hsome)
    as (arr & arr' & d' & Hloop & Hv).
  apply network_loop_fields in Hloop as (Hrem & Hconns).
  split; [|exact Hconns].
  destruct (lastRemote (Attr doc)) as [v|].
  - destruct Hrem as (s & host & port & more & -> & Hs & <- & <-).
    exists s, more. auto.
  - destruct Hrem as [Hz _]. elim Hv. exact Hz.
Qed.

(** X12.  Rendering a record that has been rendered changes nothing: a
    second call on the record that a first call left returns this record
    again, with the same diagnostics. *)
Theorem AddLegacyString_idempotent doc doc' err d :
  AddLegacyString MarshalExtJSON doc = Done (doc', err) d ->
  AddLegacyString MarshalExtJSON doc' = Done (doc', err) d.
Proof.
  intros H. apply AddLegacyString_Done in H as (arr & p & Htok & -> & ->).
  assert (forall doc2, Component doc2 = Component doc -> Msg doc2 = Msg doc ->
                       Attr doc2 = Attr doc ->
                       legacyTokens MarshalExtJSON doc2 = Done (arr, p) d) as Hsame.
  { intros doc2 Hc Hm Ha. rewrite <- Htok. apply legacyTokens_same_input; assumption. }
  destruct (List.length arr =? 0)%nat eqn:Hlen.
  - rewrite (AddLegacyString_of_tokens _ _ arr p d);
      [|apply Hsame; destruct p; reflexivity].
    rewrite Hlen. destruct p; reflexivity.
  - rewrite (AddLegacyString_of_tokens _ _ arr p d);
      [|apply Hsame; destruct p; reflexivity].
    rewrite Hlen. destruct p; reflexivity.
Qed.





Lemma rangeAttr_filter {S : Type} (body : S -> E -> outcome S) (keep : E -> bool) :
  (forall s attr, keep attr = false -> body s attr = ret s) ->
  forall attrs s, rangeAttr body (List.filter keep attrs) s = rangeAttr body attrs s.
Proof.
  intros Hskip. induction attrs as [|attr rest IH]; intros s; [reflexivity|].
  cbn [List.filter]. destruct (keep attr) eqn:Hk.
  - rewrite !rangeAttr_cons. destruct (body s attr) as [s' d|reason]; [|reflexivity].
    cbn [bind]. rewrite IH. reflexivity.
  - rewrite rangeAttr_cons, (Hskip s attr Hk), bind_ret_l. apply IH.
Qed.

(** X14.  The rule of an ACCESS record reads the attributes
    [authenticationDatabase], [principalName], [remote] and
    [durationMillis] only, the rule of a NETWORK record the attributes
    [remote], [client], [connectionId], [connectionCount] and [doc] only:
    a call on the record without its other attributes does what the call
    on the whole record does, panic included. *)
Theorem unrecognized_attributes_ignored doc :
  Component doc = "ACCESS" \/ Component doc = "NETWORK" ->
  AddLegacyString MarshalExtJSON
    (withAttr doc (List.filter (fun attr => recognizedKey (Component doc) (Key attr)) (Attr doc)))
  = match AddLegacyString MarshalExtJSON doc with
    | Done (doc', err) d =>
        Done (withAttr doc'
                (List.filter (fun attr => recognizedKey (Component doc) (Key attr)) (Attr doc)),
              err) d
    | Panic reason => Panic reason
    end.
Proof.
  intros Hc.
  set (attrs' := List.filter (fun attr => recognizedKey (Component doc) (Key attr)) (Attr doc)).
  assert (legacyTokens MarshalExtJSON (withAttr doc attrs') = legacyTokens MarshalExtJSON doc)
    as Htok.
  { unfold legacyTokens, withAttr. cbn [Component Msg Attr]. subst attrs'.
    destruct Hc as [Hc|Hc]; rewrite Hc; cbn [String.eqb Ascii.eqb Bool.eqb andb].
    - rewrite rangeAttr_filter; [reflexivity|].
      intros s attr Hk. unfold recognizedKey in Hk.
      cbn [String.eqb Ascii.eqb Bool.eqb] in Hk.
      apply orb_false_iff in Hk as [Hk H4]. apply orb_false_iff in Hk as [Hk H3].
      apply orb_false_iff in Hk as [H1 H2].
      unfold accessAttr. rewrite H1, H2, H3, H4. reflexivity.
    - rewrite rangeAttr_filter; [reflexivity|].
      intros [r arr] attr Hk. unfold recognizedKey in Hk.
      cbn [String.eqb Ascii.eqb Bool.eqb] in Hk.
      apply orb_false_iff in Hk as [Hk H5]. apply orb_false_iff in Hk as [Hk H4].
      apply orb_false_iff in Hk as [Hk H3]. apply orb_false_iff in Hk as [H1 H2].
      unfold networkAttr. rewrite H1, H2, H3, H4, H5. reflexivity. }
  unfold AddLegacyString. rewrite Htok.
  destruct (legacyTokens MarshalExtJSON doc) as [[arr p] d|reason]; [|reflexivity].
  cbn [bind]. destruct (List.length arr =? 0)%nat; destruct p; reflexivity.
Qed.

Lemma rangeAttr_Done_diag {S : Type} (body : S -> E -> outcome S) (Q : E -> Prop) (attrs : D) :
  (forall s attr s' d, body s attr = Done s' d -> (d = [] <-> Q attr)) ->
  forall s s' d, rangeAttr body attrs s = Done s' d -> (d = [] <-> Forall Q attrs).
Proof.
  intros Hbody. induction attrs as [|attr rest IH]; intros s s' d H.
  - injection H as _ <-. split; [constructor|reflexivity].
  - rewrite rangeAttr_cons in H.
    apply bind_Done in H as (s1 & d1 & d2 & Hstep & Hrest & ->).
    pose proof (Hbody _ _ _ _ Hstep) as Hhead. pose proof (IH _ _ _ Hrest) as Htail.
    split.
    + intros Happ. apply app_eq_nil in Happ as [H1 H2].
      constructor; [apply Hhead; exact H1|apply Htail; exact H2].
    + intros HF. inversion HF as [|a l Hq Hr]; subst.
      apply Hhead in Hq. apply Htail in Hr. subst. reflexivity.
Qed.

Lemma defaultAttr_diag arr attr arr' d :
  defaultAttr arr attr = Done arr' d -> (d = [] <-> quietAttr attr).
Proof.
  unfold defaultAttr, quietAttr. intros H.
  destruct (String.eqb (Key attr) "type" || String.eqb (Key attr) "ns").
  - apply bind_Done in H as (s & d1 & d2 & Hs & Hret & ->).
    destruct (Val attr); try discriminate Hs. injection Hs as _ <-.
    injection Hret as _ <-. split; auto.
  - destruct (String.eqb (Key attr) "durationMillis").
    + injection H as _ <-. split; auto.
    + apply bind_Done in H as (r & d1 & d2 & Hr & Hret & ->).
      injection Hret as _ <-. rewrite app_nil_r.
      exact (quiet_toLegacyString _ _ _ Hr).
Qed.

(** X15.  Under the default rule a call that returns has written no
    diagnostic exactly when every attribute that it renders, that is every
    attribute with another key than [type], [ns] and [durationMillis],
    holds no binary value of an unhandled subtype and no value of an
    unlisted type, at any depth. *)
Theorem default_quiet_iff doc doc' err d :
  Component doc <> "ACCESS" -> Component doc <> "NETWORK" ->
  (Component doc = "CONTROL" -> default VNil (lastValue "host" (Attr doc)) = VNil) ->
  AddLegacyString MarshalExtJSON doc = Done (doc', err) d ->
  (d = [] <-> Forall quietAttr (Attr doc)).
Proof.
  intros Ha Hn Hc H.
  apply AddLegacyString_Done in H as (arr & p & Htok & _ & _).
  rewrite (legacyTokens_default doc Ha Hn Hc) in Htok.
  apply bind_Done in Htok as (arr1 & d1 & d2 & Hloop & Hret & ->).
  injection Hret as _ _ <-. rewrite app_nil_r.
  exact (rangeAttr_Done_diag defaultAttr quietAttr (Attr doc) defaultAttr_diag _ _ _ Hloop).
Qed.

(** X16.  The rules of CONTROL records with a host, of ACCESS records and
    of NETWORK records write no diagnostic: a call that returns on such a
    record has written none, whatever the attributes hold. *)
Theorem named_rules_quiet doc doc' err d :
  Component doc = "ACCESS" \/ Component doc = "NETWORK"
  \/ (Component doc = "CONTROL" /\ default VNil (lastValue "host" (Attr doc)) <> VNil) ->
  AddLegacyString MarshalExtJSON doc = Done (doc', err) d ->
  d = [].
Proof.
  intros Hc H. apply AddLegacyString_Done in H as (arr & p & Htok & _ & _).
  destruct Hc as [Hc|[Hc|[Hc Hhost]]].
  - unfold legacyTokens in Htok. rewrite Hc in Htok.
    cbn [String.eqb Ascii.eqb Bool.eqb andb] in Htok.
    destruct (access_loop_Done (Attr doc) (messageTokens (Msg doc))) as [toks Hloop].
    rewrite Hloop in Htok. injection Htok as _ _ <-. reflexivity.
  - rewrite (legacyTokens_network doc Hc) in Htok.
    apply bind_Done in Htok as ([remote arr1] & d1 & d2 & Hloop & Hret & ->).
    apply network_loop_host in Hloop as (-> & _).
    destruct (negb (String.eqb (Remote.Value remote) EmptyString));
      injection Hret as _ _ <-; reflexivity.
  - unfold legacyTokens in Htok. rewrite Hc, mapIndex_Map in Htok.
    cbn [String.eqb Ascii.eqb Bool.eqb andb] in Htok.
    destruct (default VNil (lastValue "host" (Attr doc))); cbn [isNil negb] in Htok;
      try (injection Htok as _ _ <-; reflexivity).
    elim Hhost. reflexivity.
Qed.

End Rules.

(** ** The further theorems at concrete values and records *)

Lemma toLegacyString_result_witness :
  toLegacyString (VDateTime 1600000000000)
  = Done (VString (" " ++ GoStr.dq ++ "1600000000000" ++ GoStr.dq)) []
  /\ exists s, VString (" " ++ GoStr.dq ++ "1600000000000" ++ GoStr.dq) = VString s.
Proof.
  split; [reflexivity|].
  exact (toLegacyString_result (VDateTime 1600000000000) _ [] eq_refl).
Defined.

Lemma toLegacyString_quiet_iff_witness :
  toLegacyString (VA [VInt32 1; VBinary 128 [Byte.x01]])
  = Done (VString "[1, {128 [1]}]") ["unhandled subtype 128"]
  /\ (["unhandled subtype 128"] = [] <->
      hasUnhandled (VA [VInt32 1; VBinary 128 [Byte.x01]]) = false).
Proof.
  split; [reflexivity|].
  exact (toLegacyString_quiet_iff (VA [VInt32 1; VBinary 128 [Byte.x01]]) _ _ eq_refl).
Defined.

Lemma array_layout_witness :
  Forall2 slotText [VInt32 1; VD [mkE "a" (VInt32 1); mkE "b" (VInt32 2)]]
    ["1"; "{ a:1 }, { b:2 }"]
  /\ exists diag,
       toLegacyString (VA [VInt32 1; VD [mkE "a" (VInt32 1); mkE "b" (VInt32 2)]])
       = Done (VString ("[" ++ GoStr.Join ["1"; "{ a:1 }, { b:2 }"] ", " ++ "]")) diag.
Proof.
  assert (Forall2 slotText [VInt32 1; VD [mkE "a" (VInt32 1); mkE "b" (VInt32 2)]]
            ["1"; "{ a:1 }, { b:2 }"]) as H.
  { constructor; [|constructor; [|constructor]].
    - exists (VInt32 1), []. split; reflexivity.
    - exists ["{ a:1 }"; "{ b:2 }"]. split; [|reflexivity].
      repeat constructor; eexists; eexists; split; reflexivity. }
  split; [exact H|]. exact (array_layout _ _ H).
Defined.

Lemma uuid_groups_witness :
  (10 <= List.length [Byte.x00; Byte.x11; Byte.x22; Byte.x33; Byte.x44; Byte.x55;
                      Byte.x66; Byte.x77; Byte.x88; Byte.x99; Byte.xaa; Byte.xbb])%nat
  /\ exists g1 g2 g3 g4 g5 : string,
       toLegacyString
         (VBinary 4 [Byte.x00; Byte.x11; Byte.x22; Byte.x33; Byte.x44; Byte.x55;
                     Byte.x66; Byte.x77; Byte.x88; Byte.x99; Byte.xaa; Byte.xbb])
       = Done (VString ("{ $uuid: " ++ GoStr.dq ++ g1 ++ "-" ++ g2 ++ "-" ++ g3 ++ "-" ++ g4
                          ++ "-" ++ g5 ++ GoStr.dq ++ "}")) []
       /\ g1 ++ g2 ++ g3 ++ g4 ++ g5 = "00112233445566778899aabb"
       /\ String.length g1 = 8%nat /\ String.length g2 = 4%nat
       /\ String.length g3 = 4%nat /\ String.length g4 = 4%nat
       /\ String.length g5 = 4%nat.
Proof.
  assert (10 <= List.length [Byte.x00; Byte.x11; Byte.x22; Byte.x33; Byte.x44; Byte.x55;
                             Byte.x66; Byte.x77; Byte.x88; Byte.x99; Byte.xaa; Byte.xbb])%nat
    as H by (cbn; lia).
  split; [exact H|]. exact (uuid_groups _ H).
Defined.

Lemma access_never_fails_witness :
  Component sampleAccess = "ACCESS"
  /\ specAccessTokens (Attr sampleAccess) = ["as principal alice"; "on admin"]
  /\ AddLegacyString failingExtJSON sampleAccess
     = Done (setMessage sampleAccess
               "Successfully authenticated as principal alice on admin", None) [].
Proof.
  split; [reflexivity|]. split; [reflexivity|].
  exact (access_never_fails failingExtJSON sampleAccess eq_refl).
Defined.

Lemma control_line_witness :
  Component sampleControl = "CONTROL"
  /\ lastValue "host" (Attr sampleControl) = Some (VString "x.example.com")
  /\ VString "x.example.com" <> VNil
  /\ AddLegacyString failingExtJSON sampleControl
     = Done (setMessage sampleControl
               "MongoDB starting pid=1234 port=27017 <nil> host=x.example.com", None) [].
Proof.
  assert (VString "x.example.com" <> VNil) as Hnil by discriminate.
  split; [reflexivity|]. split; [reflexivity|]. split; [exact Hnil|].
  exact (control_line failingExtJSON sampleControl (VString "x.example.com")
           eq_refl eq_refl Hnil).
Defined.

Lemma network_returns_iff_witness :
  Component sampleAccepted = "NETWORK"
  /\ (returns (AddLegacyString failingExtJSON sampleAccepted)
      <-> Forall remoteSplits (Attr sampleAccepted)).
Proof.
  split; [reflexivity|]. exact (network_returns_iff failingExtJSON sampleAccepted eq_refl).
Defined.

Lemma default_returns_iff_witness :
  Component sampleCommand <> "ACCESS"
  /\ Component sampleCommand <> "NETWORK"
  /\ (returns (AddLegacyString failingExtJSON sampleCommand)
      <-> Forall defaultAttrOk (Attr sampleCommand)).
Proof.
  assert (Component sampleCommand <> "ACCESS") as Ha by discriminate.
  assert (Component sampleCommand <> "NETWORK") as Hn by discriminate.
  split; [exact Ha|]. split; [exact Hn|].
  apply (default_returns_iff failingExtJSON sampleCommand Ha Hn).
  intros Hc. discriminate Hc.
Defined.

Lemma remote_flags_witness :
  Component sampleAccepted = "NETWORK"
  /\ Remote sampleAccepted = None
  /\ AddLegacyString failingExtJSON sampleAccepted = Done (sampleAcceptedRendered, None) []
  /\ Remote sampleAcceptedRendered = Some (Remote.mk "127.0.0.1" "54321" 1 0 0)
  /\ Remote.Accepted (Remote.mk "127.0.0.1" "54321" 1 0 0) = 1
  /\ Remote.Ended (Remote.mk "127.0.0.1" "54321" 1 0 0) = 0.
Proof.
  do 4 (split; [reflexivity|]).
  exact (remote_flags failingExtJSON sampleAccepted sampleAcceptedRendered None []
           (Remote.mk "127.0.0.1" "54321" 1 0 0) eq_refl eq_refl eq_refl eq_refl).
Defined.

Lemma remote_fields_witness :
  Component sampleAccepted = "NETWORK"
  /\ Remote sampleAccepted = None
  /\ AddLegacyString failingExtJSON sampleAccepted = Done (sampleAcceptedRendered, None) []
  /\ Remote sampleAcceptedRendered = Some (Remote.mk "127.0.0.1" "54321" 1 0 0)
  /\ (exists s more,
        lastRemote (Attr sampleAccepted) = Some (VString s)
        /\ GoStr.Split s ":" = "127.0.0.1" :: "54321" :: more
        /\ "127.0.0.1" <> EmptyString)
  /\ 0 = match lastValue "connectionCount" (Attr sampleAccepted) with
         | Some v => ToInt v
         | None => 0
         end.
Proof.
  do 4 (split; [reflexivity|]).
  exact (remote_fields failingExtJSON sampleAccepted sampleAcceptedRendered None []
           (Remote.mk "127.0.0.1" "54321" 1 0 0) eq_refl eq_refl eq_refl eq_refl).
Defined.

Lemma AddLegacyString_idempotent_witness :
  AddLegacyString failingExtJSON sampleAccepted = Done (sampleAcceptedRendered, None) []
  /\ AddLegacyString failingExtJSON sampleAcceptedRendered
     = Done (sampleAcceptedRendered, None) [].
Proof.
  split; [reflexivity|].
  exact (AddLegacyString_idempotent failingExtJSON sampleAccepted sampleAcceptedRendered
           None [] eq_refl).
Defined.


Lemma unrecognized_attributes_ignored_witness :
  (Component sampleAccess = "ACCESS" \/ Component sampleAccess = "NETWORK")
  /\ AddLegacyString failingExtJSON
       (withAttr sampleAccess
          [mkE "principalName" (VString "alice");
           mkE "authenticationDatabase" (VString "admin")])
     = Done (withAttr
               (setMessage sampleAccess "Successfully authenticated as principal alice on admin")
               [mkE "principalName" (VString "alice");
                mkE "authenticationDatabase" (VString "admin")],
             None) [].
Proof.
  split; [left; reflexivity|].
  exact (unrecognized_attributes_ignored failingExtJSON sampleAccess (or_introl eq_refl)).
Defined.

Lemma default_quiet_iff_witness :
  Component sampleCommand <> "ACCESS"
  /\ Component sampleCommand <> "NETWORK"
  /\ AddLegacyString failingExtJSON sampleCommand
     = Done (setMessage sampleCommand
               ("command test.coll command: { find: " ++ GoStr.dq ++ "coll" ++ GoStr.dq
                  ++ ", limit:1 } 12ms"), None) []
  /\ (@nil string = [] <-> Forall quietAttr (Attr sampleCommand)).
Proof.
  assert (Component sampleCommand <> "ACCESS") as Ha by discriminate.
  assert (Component sampleCommand <> "NETWORK") as Hn by discriminate.
  assert (Component sampleCommand = "CONTROL" ->
          default VNil (lastValue "host" (Attr sampleCommand)) = VNil) as Hc
    by (intros Hc; discriminate Hc).
  split; [exact Ha|]. split; [exact Hn|]. split; [reflexivity|].
  exact (default_quiet_iff failingExtJSON sampleCommand _ None [] Ha Hn Hc eq_refl).
Defined.

Lemma named_rules_quiet_witness :
  (Component sampleControl = "ACCESS" \/ Component sampleControl = "NETWORK"
   \/ (Component sampleControl = "CONTROL"
       /\ default VNil (lastValue "host" (Attr sampleControl)) <> VNil))
  /\ AddLegacyString failingExtJSON sampleControl
     = Done (setMessage sampleControl
               "MongoDB starting pid=1234 port=27017 <nil> host=x.example.com", None) []
  /\ @nil string = [].
Proof.
  assert (Component sampleControl = "ACCESS" \/ Component sampleControl = "NETWORK"
          \/ (Component sampleControl = "CONTROL"
              /\ default VNil (lastValue "host" (Attr sampleControl)) <> VNil)) as Hc.
  { right. right. split; [reflexivity|discriminate]. }
  split; [exact Hc|]. split; [reflexivity|].
  exact (named_rules_quiet failingExtJSON sampleControl _ None [] Hc eq_refl).
Defined.
